(** * REST dispatch engine and task manager of the vAPI runtime

    A shallow embedding of
    - [vmware/vapi/rest/rules.py]   (mapping rules, [DispatchInfo]),
    - [vmware/vapi/rest/handler.py] ([RESTHandler._find_matching_operation],
      [RESTHandler._serialize_output]),
    - [vmware/vapi/task/task_manager_impl.py] ([TaskManagerImpl]),
    followed by the properties of the specification that concern them.

    Python dictionaries are finite maps ([gmap]), ordered dictionaries are
    association lists, Python sets are [gset]s whose iteration order is an
    explicit input, exceptions are values of [exn], and the wall clock is an
    explicit input in microseconds. *)

From Stdlib Require Import ZArith Ascii Lia.
From Stdlib Require String.
From stdpp Require Import base option list gmap sets strings.

Local Open Scope Z_scope.

(** ** Python exceptions and results *)

Inductive exn : Type :=
| KeyError (key : string)
| ValueError
| AttributeError
| CoreException
| StopIteration
| TypeError
| NotFound (msg : string)
| BadRequest (msg : string).

Inductive result (A : Type) : Type :=
| Ok (a : A)
| Raise (e : exn).
Arguments Ok {A} a.
Arguments Raise {A} e.

#[global] Instance result_ret : MRet result := fun _ a => Ok a.
#[global] Instance result_bind : MBind result := fun _ _ k r =>
  match r with
  | Ok a => k a
  | Raise e => Raise e
  end.

#[global] Instance result_fmap : FMap result := fun _ _ f r =>
  match r with
  | Ok a => Ok (f a)
  | Raise e => Raise e
  end.

(** The status code werkzeug attaches to its HTTP exceptions; any other
    exception escapes the handler. *)
Definition http_code (e : exn) : option Z :=
  match e with
  | NotFound _ => Some 404
  | BadRequest _ => Some 400
  | _ => None
  end.

(** ** The [str] methods used by the source, on ASCII text *)

Module PyStr.

Definition ascii_in_range (lo hi : nat) (c : ascii) : bool :=
  let n := nat_of_ascii c in (Nat.leb lo n && Nat.leb n hi)%bool.

(** [str.isspace] on the ASCII range: TAB..CR, FS..US and the blank. *)
Definition is_space (c : ascii) : bool :=
  (ascii_in_range 9 13 c || ascii_in_range 28 32 c)%bool.

Definition lower_char (c : ascii) : ascii :=
  if ascii_in_range 65 90 c then ascii_of_nat (nat_of_ascii c + 32) else c.

Fixpoint map_chars (f : ascii -> ascii) (s : string) : string :=
  match s with
  | EmptyString => EmptyString
  | String c s' => String (f c) (map_chars f s')
  end.

(** [s.lower()] *)
Definition lower (s : string) : string := map_chars lower_char s.

(** [s.replace(a, b)] for one-character [a] and [b] *)
Definition replace (a b : ascii) (s : string) : string :=
  map_chars (fun c => if Ascii.eqb c a then b else c) s.

Fixpoint lstrip (s : string) : string :=
  match s with
  | EmptyString => EmptyString
  | String c s' => if is_space c then lstrip s' else s
  end.

Fixpoint rstrip (s : string) : string :=
  match s with
  | EmptyString => EmptyString
  | String c s' =>
      match rstrip s' with
      | EmptyString => if is_space c then EmptyString else String c EmptyString
      | r => String c r
      end
  end.

(** [s.strip()] *)
Definition strip (s : string) : string := rstrip (lstrip s).

(** [s.split(sep)] for a one-character separator: never empty. *)
Fixpoint split (sep : ascii) (s : string) : list string :=
  match s with
  | EmptyString => [EmptyString]
  | String c s' =>
      if Ascii.eqb c sep then EmptyString :: split sep s'
      else match split sep s' with
           | piece :: pieces => String c piece :: pieces
           | [] => [String c EmptyString]
           end
  end.

(** [sep.join(pieces)] *)
Definition join (sep : string) (pieces : list string) : string :=
  String.concat sep pieces.

(** [s.find(sub) >= 0] *)
Fixpoint contains (sub s : string) : bool :=
  (String.prefix sub s ||
   match s with
   | EmptyString => false
   | String _ s' => contains sub s'
   end)%bool.

(** [s.endswith(suffix)] for a one-character suffix *)
Fixpoint endswith_char (c : ascii) (s : string) : bool :=
  match s with
  | EmptyString => false
  | String d EmptyString => Ascii.eqb d c
  | String _ s' => endswith_char c s'
  end.

(** [c in s] for a character *)
Fixpoint has_char (c : ascii) (s : string) : bool :=
  match s with
  | EmptyString => false
  | String d s' => (Ascii.eqb d c || has_char c s')%bool
  end.

(** [s[1:]] *)
Definition tail (s : string) : string :=
  match s with
  | EmptyString => EmptyString
  | String _ s' => s'
  end.

(** Truthiness of a string: non-empty. *)
Definition truthy (s : string) : bool :=
  match s with
  | EmptyString => false
  | _ => true
  end.

End PyStr.

(** ** [vmware/vapi/lib/constants.py] *)

Module RestAnnotations.
Definition METHOD_ELEMENT : string := "method".
Definition VALUE_ELEMENT : string := "value".
Definition ACTION_PARAM : string := "action".
Definition PARAMS_ELEMENT : string := "params".
Definition PATH_ELEMENT : string := "path".
Definition HEADERS_ELEMENT : string := "headers".
End RestAnnotations.

Inductive RestAnnotationType : Type := NONE | REQUEST | VERB.

#[global] Instance RestAnnotationType_eq_dec : EqDecision RestAnnotationType.
Proof. solve_decision. Defined.

Definition TASK_REST_QUERY_PARAM : string := "vmw-task".
Definition TASK_OPERATION : string := "$task".

(** ** The metamodel values read by the rules

    [com.vmware.vapi.metadata.metamodel_client] is generated code that is not
    part of the sources; only the attributes the rules read are kept. *)

Module Metamodel.

Inductive Category : Type := BUILTIN | USER_DEFINED | GENERIC.

Inductive BuiltinType : Type :=
| VOID | BOOLEAN | LONG | DOUBLE | STRING | BINARY | SECRET | DATE_TIME
| ID | URI | ANY_ERROR | DYNAMIC_STRUCTURE | OPAQUE.

(** [Type]: [builtin_type] is [None] unless the category is [BUILTIN]. *)
Record MetaType : Type := {
  category : Category;
  builtin_type : option BuiltinType
}.

Record FieldInfo : Type := { type : MetaType }.

(** [ElementValue]: the elements read through [string_value] are of string
    type; [list_value] is [None] on the others. *)
Record ElementValue : Type := {
  string_value : string;
  list_value : option (list string)
}.

Record ElementMap : Type := { elements : gmap string ElementValue }.

Definition is_BUILTIN (c : Category) : bool :=
  match c with BUILTIN => true | _ => false end.

Definition is_ID (b : option BuiltinType) : bool :=
  match b with Some ID => true | _ => false end.

End Metamodel.

(** ** [vmware/vapi/rest/handler.py]: [MetadataStore.OperationSummary] *)

Record OperationSummary : Type := {
  param_info_map : list (string * Metamodel.FieldInfo);
  request_mapping_metadata : option Metamodel.ElementMap;
  (* a dict with the single entry of the operation's verb annotation *)
  verb_metadata : option (list (string * Metamodel.ElementMap));
  success_response_code : option Z;
  response_headers_map : option (list (string * string));
  response_body_name : option string
}.

Definition has_request_mapping_metadata (s : OperationSummary) : bool :=
  bool_decide (is_Some (request_mapping_metadata s)).

Definition has_verb_metadata (s : OperationSummary) : bool :=
  bool_decide (is_Some (verb_metadata s)).

(** [request.headers]: werkzeug's header container, through its lookup.
    [key in headers] is [headers_contains], [headers.get(key)] is
    [headers_get]. *)
Record Headers : Type := { headers_get : string -> option string }.

Definition headers_contains (h : Headers) (key : string) : bool :=
  bool_decide (is_Some (headers_get h key)).

(** A header container over a list of fields, with names compared without
    regard to case as werkzeug does. *)
Definition environ_headers (fields : list (string * string)) : Headers :=
  {| headers_get := fun key =>
       snd <$> List.find (fun kv => String.eqb (PyStr.lower (fst kv))
                                               (PyStr.lower key)) fields |}.

Record Request : Type := {
  method : string;
  headers : Headers
}.

(** ** [vmware/vapi/rest/rules.py] *)

Module Rules.

Import Metamodel.

Definition http_method_map : gmap string string :=
  <["GET" := "list"]>
  (<["PATCH" := "update"]>
  (<["DELETE" := "delete"]>
  (<["POST" := "create"]>
  (<["PUT" := "set"]>
  (<["HEAD" := "get"]> ∅))))).

(** [DispatchInfo] *)
Record DispatchInfo : Type := {
  mapping_type : RestAnnotationType;
  operation_id : string;
  params : list string;
  dispatch_headers : list string;
  action_value : option string
}.

(** [DispatchInfo.__init__]: a missing or empty list becomes [[]]. *)
Definition new_DispatchInfo (mapping_type : RestAnnotationType)
    (operation_id : string) (params headers : option (list string))
    (action_value : option string) : DispatchInfo :=
  {| mapping_type := mapping_type;
     operation_id := operation_id;
     params := default [] params;
     dispatch_headers := default [] headers;
     action_value := action_value |}.

(** [MappingRule._generate_service_base_url] *)
Definition _generate_service_base_url (rest_prefix service_id : string)
    : string :=
  let suffix :=
    PyStr.lower (PyStr.replace "." "/" (PyStr.replace "_" "-" service_id))%char in
  rest_prefix +:+ suffix.

(** [MappingRule._get_id_suffix] *)
Fixpoint _get_id_suffix (param_info_map : list (string * FieldInfo))
    : string :=
  match param_info_map with
  | [] => ""
  | (param_name, param_info) :: rest =>
      if (is_BUILTIN (category (type param_info))
          && is_ID (builtin_type (type param_info)))%bool
      then "/<string:" +:+ param_name +:+ ">"
      else _get_id_suffix rest
  end.

Inductive MappingRule : Type :=
| CustomRequestMappingRule
| VerbMappingRule
| ListMappingRule
| PostMappingRule
| DeleteMappingRule
| GetMappingRule
| PatchMappingRule
| PutMappingRule
| PostActionMappingRule.

Definition is_VerbMappingRule (r : MappingRule) : bool :=
  match r with VerbMappingRule => true | _ => false end.

(** A generated rule: URL template, HTTP method, dispatch information. *)
Definition Route : Type := string * string * DispatchInfo.

(** [PostActionMappingRule._crud_ops] *)
Definition _crud_ops : list string :=
  ["create"; "get"; "list"; "update"; "set"; "delete"].

(** The [match] method of each rule class. *)
Definition rule_match (r : MappingRule) (operation_id : string)
    (operation_summary : OperationSummary) : bool :=
  match r with
  | CustomRequestMappingRule => has_request_mapping_metadata operation_summary
  | VerbMappingRule => has_verb_metadata operation_summary
  | ListMappingRule => String.eqb operation_id "list"
  | PostMappingRule => String.eqb operation_id "create"
  | DeleteMappingRule => String.eqb operation_id "delete"
  | GetMappingRule => String.eqb operation_id "get"
  | PatchMappingRule => String.eqb operation_id "update"
  | PutMappingRule => String.eqb operation_id "set"
  | PostActionMappingRule => negb (bool_decide (operation_id ∈ _crud_ops))
  end.

(** [d[key]] on a dictionary *)
Definition getitem {V : Type} (d : gmap string V) (key : string) : result V :=
  match d !! key with
  | Some v => Ok v
  | None => Raise (KeyError key)
  end.

(** [(a, b) = pieces] *)
Definition unpack2 (pieces : list string) : result (string * string) :=
  match pieces with
  | [a; b] => Ok (a, b)
  | _ => Raise ValueError
  end.

(** The loop of [CustomRequestMappingRule.url] over [params.list_value]. *)
Fixpoint find_action_value (list_value : list string) : option string :=
  match list_value with
  | [] => None
  | param :: rest =>
      match PyStr.split "=" param with
      | [name; value] =>
          if String.eqb name RestAnnotations.ACTION_PARAM then Some value
          else find_action_value rest
      | _ => find_action_value rest
      end
  end.

Section MappingRules.

(** [vmware.vapi.bindings.task_helper.get_non_task_operation_name], which
    is not part of the sources. *)
Variable get_non_task_operation_name : string -> string.

Definition default_dispatch_info (operation_id : string) : DispatchInfo :=
  new_DispatchInfo NONE (get_non_task_operation_name operation_id)
    None None None.

(** [ListMappingRule.url] *)
Definition ListMappingRule_url (rest_prefix service_id operation_id : string)
    (operation_summary : OperationSummary) : Route :=
  let service_url := _generate_service_base_url rest_prefix service_id in
  (service_url, "GET", default_dispatch_info operation_id).

(** [PostMappingRule.url] *)
Definition PostMappingRule_url (rest_prefix service_id operation_id : string)
    (operation_summary : OperationSummary) : Route :=
  let service_url := _generate_service_base_url rest_prefix service_id in
  (service_url, "POST", default_dispatch_info operation_id).

(** [DeleteMappingRule.url] *)
Definition DeleteMappingRule_url (rest_prefix service_id operation_id : string)
    (operation_summary : OperationSummary) : Route :=
  let service_url := _generate_service_base_url rest_prefix service_id in
  let id_suffix := _get_id_suffix (param_info_map operation_summary) in
  let dispatch_info := default_dispatch_info operation_id in
  if PyStr.truthy id_suffix
  then (service_url +:+ id_suffix, "DELETE", dispatch_info)
  else (service_url, "POST", dispatch_info).

(** [GetMappingRule.url] *)
Definition GetMappingRule_url (rest_prefix service_id operation_id : string)
    (operation_summary : OperationSummary) : Route :=
  let service_url := _generate_service_base_url rest_prefix service_id in
  let id_suffix := _get_id_suffix (param_info_map operation_summary) in
  let dispatch_info := default_dispatch_info operation_id in
  if PyStr.truthy id_suffix
  then (service_url +:+ id_suffix, "GET", dispatch_info)
  else (service_url, "POST", dispatch_info).

(** [PatchMappingRule.url] *)
Definition PatchMappingRule_url (rest_prefix service_id operation_id : string)
    (operation_summary : OperationSummary) : Route :=
  let service_url := _generate_service_base_url rest_prefix service_id in
  let id_suffix := _get_id_suffix (param_info_map operation_summary) in
  let dispatch_info := default_dispatch_info operation_id in
  if PyStr.truthy id_suffix
  then (service_url +:+ id_suffix, "PATCH", dispatch_info)
  else (service_url, "POST", dispatch_info).

(** [PutMappingRule.url] *)
Definition PutMappingRule_url (rest_prefix service_id operation_id : string)
    (operation_summary : OperationSummary) : Route :=
  let service_url := _generate_service_base_url rest_prefix service_id in
  let id_suffix := _get_id_suffix (param_info_map operation_summary) in
  let dispatch_info := default_dispatch_info operation_id in
  if PyStr.truthy id_suffix
  then (service_url +:+ id_suffix, "PUT", dispatch_info)
  else (service_url, "POST", dispatch_info).

(** [PostActionMappingRule.url] *)
Definition PostActionMappingRule_url
    (rest_prefix service_id operation_id : string)
    (operation_summary : OperationSummary) : Route :=
  let service_url := _generate_service_base_url rest_prefix service_id in
  let id_suffix := _get_id_suffix (param_info_map operation_summary) in
  (service_url +:+ id_suffix, "POST", default_dispatch_info operation_id).

(** [CustomRequestMappingRule.url] *)
Definition CustomRequestMappingRule_url
    (rest_prefix service_id operation_id : string)
    (operation_summary : OperationSummary) : result Route :=
  match request_mapping_metadata operation_summary with
  | None => Raise AttributeError
  | Some request_mapping =>
      method_element ←
        getitem (elements request_mapping) RestAnnotations.METHOD_ELEMENT;
      let http_method := string_value method_element in
      value_element ←
        getitem (elements request_mapping) RestAnnotations.VALUE_ELEMENT;
      let custom_url := string_value value_element in
      let custom_url := PyStr.replace "{" "<" custom_url in
      let custom_url := PyStr.replace "}" ">" custom_url in
      let custom_url := rest_prefix +:+ PyStr.tail custom_url in
      '(custom_url, action_value) ←
        (if PyStr.has_char "?" custom_url then
           '(custom_url, param) ← unpack2 (PyStr.split "?" custom_url);
           '(_, action_value) ← unpack2 (PyStr.split "=" param);
           mret (custom_url, Some action_value)
         else
           match elements request_mapping !! RestAnnotations.PARAMS_ELEMENT
                 ≫= list_value with
           | Some (param :: rest) =>
               mret (custom_url, find_action_value (param :: rest))
           | _ => mret (custom_url, None)
           end);
      mret (custom_url, http_method,
            new_DispatchInfo REQUEST
              (get_non_task_operation_name operation_id)
              None None action_value)
  end.

(** [VerbMappingRule.url] *)
Definition VerbMappingRule_url
    (rest_prefix service_id operation_id : string)
    (operation_summary : OperationSummary) : result Route :=
  match verb_metadata operation_summary with
  | None => Raise AttributeError
  | Some [] => Raise StopIteration
  | Some ((http_method, request_metadata) :: _) =>
      path_element ←
        getitem (elements request_metadata) RestAnnotations.PATH_ELEMENT;
      let custom_url := string_value path_element in
      let custom_url := PyStr.replace "{" "<" custom_url in
      let custom_url := PyStr.replace "}" ">" custom_url in
      let custom_url := rest_prefix +:+ PyStr.tail custom_url in
      let dispatch_params :=
        elements request_metadata !! RestAnnotations.PARAMS_ELEMENT
        ≫= list_value in
      let dispatch_headers :=
        elements request_metadata !! RestAnnotations.HEADERS_ELEMENT
        ≫= list_value in
      mret (custom_url, http_method,
            new_DispatchInfo VERB
              (get_non_task_operation_name operation_id)
              dispatch_params dispatch_headers None)
  end.

(** The [url] method of each rule class. *)
Definition rule_url (r : MappingRule)
    (rest_prefix service_id operation_id : string)
    (operation_summary : OperationSummary) : result Route :=
  match r with
  | CustomRequestMappingRule =>
      CustomRequestMappingRule_url rest_prefix service_id operation_id
        operation_summary
  | VerbMappingRule =>
      VerbMappingRule_url rest_prefix service_id operation_id
        operation_summary
  | ListMappingRule =>
      Ok (ListMappingRule_url rest_prefix service_id operation_id
            operation_summary)
  | PostMappingRule =>
      Ok (PostMappingRule_url rest_prefix service_id operation_id
            operation_summary)
  | DeleteMappingRule =>
      Ok (DeleteMappingRule_url rest_prefix service_id operation_id
            operation_summary)
  | GetMappingRule =>
      Ok (GetMappingRule_url rest_prefix service_id operation_id
            operation_summary)
  | PatchMappingRule =>
      Ok (PatchMappingRule_url rest_prefix service_id operation_id
            operation_summary)
  | PutMappingRule =>
      Ok (PutMappingRule_url rest_prefix service_id operation_id
            operation_summary)
  | PostActionMappingRule =>
      Ok (PostActionMappingRule_url rest_prefix service_id operation_id
            operation_summary)
  end.

(** [RoutingRuleGenerator]: the normalised prefix and the rule list. *)
Record RoutingRuleGenerator : Type := {
  _rest_prefix : string;
  _mapping_rules : list MappingRule
}.

(** [RoutingRuleGenerator.__init__] *)
Definition new_RoutingRuleGenerator (rest_prefix : string)
    : RoutingRuleGenerator :=
  {| _rest_prefix :=
       if PyStr.endswith_char "/" rest_prefix then rest_prefix
       else rest_prefix +:+ "/";
     _mapping_rules :=
       [ CustomRequestMappingRule; VerbMappingRule; ListMappingRule;
         PostMappingRule; DeleteMappingRule; GetMappingRule;
         PatchMappingRule; PutMappingRule; PostActionMappingRule ] |}.

(** The loop of [RoutingRuleGenerator.generate_mapping_rule]. *)
Fixpoint generate_mapping_rule_loop (rules : list MappingRule)
    (rest_prefix service_id operation_id : string)
    (operation_summary : OperationSummary) : result (option Route) :=
  match rules with
  | [] => Ok None
  | mapping_rule :: rest =>
      if (String.eqb service_id "com.vmware.cis.session"
          && is_VerbMappingRule mapping_rule)%bool
      then generate_mapping_rule_loop rest rest_prefix service_id
             operation_id operation_summary
      else if rule_match mapping_rule operation_id operation_summary
      then Some <$> rule_url mapping_rule rest_prefix service_id
                      operation_id operation_summary
      else generate_mapping_rule_loop rest rest_prefix service_id
             operation_id operation_summary
  end.

(** [RoutingRuleGenerator.generate_mapping_rule] *)
Definition generate_mapping_rule (self : RoutingRuleGenerator)
    (service_id operation_id : string)
    (operation_summary : OperationSummary) : result (option Route) :=
  generate_mapping_rule_loop (_mapping_rules self) (_rest_prefix self)
    service_id operation_id operation_summary.

End MappingRules.

(** *** Request-time matching: the methods of [DispatchInfo] *)

(** [DispatchInfo._default_matching] *)
Definition _default_matching (self : DispatchInfo) (http_method : string)
    (query_params uri_params : gmap string string) : result (bool * Z) :=
  derived_id ← getitem http_method_map http_method;
  let derived_id :=
    if (bool_decide (uri_params ≠ ∅) && String.eqb derived_id "list")%bool
    then "get" else derived_id in
  let action := query_params !! "~action" in
  let derived_id :=
    match action with
    | Some a => if PyStr.truthy a then PyStr.replace "-" "_" a else derived_id
    | None => derived_id
    end in
  mret (String.eqb derived_id (operation_id self), 1).

(** [DispatchInfo._request_matching] *)
Definition _request_matching (self : DispatchInfo) (http_method : string)
    (query_params uri_params : gmap string string) : result (bool * Z) :=
  let action_requested := query_params !! RestAnnotations.ACTION_PARAM in
  match action_requested with
  | Some a =>
      if PyStr.truthy a
      then mret (bool_decide (action_value self = Some a), 1)
      else _default_matching self http_method query_params uri_params
  | None => _default_matching self http_method query_params uri_params
  end.

(** How an iteration of a loop of [_verb_matching] ends: by falling
    through to the next statement, or by [return]. *)
Inductive loop_exit : Type :=
| Fallthrough (arity : Z)
| Returned (retval : bool * Z).

(** [match and value] for the local [match] in [{None, True, False}] *)
Definition match_and (match_ : option bool) (value : string) : bool :=
  (bool_decide (match_ = Some true) && PyStr.truthy value)%bool.

(** The body of the first loop of [_verb_matching], up to the test
    [match is False]: the new [arity] and the local [match]. *)
Definition verb_param_body (query_params : gmap string string)
    (param : string) (arity : Z) : option bool * Z :=
  let param_split := PyStr.split "=" param in
  let name := PyStr.strip (hd "" param_split) in
  let '(arity, match_) :=
    if bool_decide (is_Some (query_params !! name))
    then (arity + 3, Some true)
    else (arity - 1, None) in
  match param_split with
  | _ :: value :: _ =>
      let q_val := query_params !! name in
      if bool_decide (q_val = Some value) then (match_, arity + 4)
      else if match_and match_ value then (Some false, arity)
      else (match_, arity)
  | _ => (match_, arity)
  end.

Fixpoint verb_params_loop (query_params : gmap string string)
    (params : list string) (arity : Z) : loop_exit :=
  match params with
  | [] => Fallthrough arity
  | param :: rest =>
      match verb_param_body query_params param arity with
      | (Some false, arity) => Returned (false, arity)
      | (_, arity) => verb_params_loop query_params rest arity
      end
  end.

(** [','.join([x.strip() for x in value.split(',')])] *)
Definition strip_join (value : string) : string :=
  PyStr.join "," (PyStr.strip <$> PyStr.split "," value).

(** The body of the second loop of [_verb_matching]. *)
Definition verb_header_body (headers : Headers) (header : string)
    (arity : Z) : option bool * Z :=
  let header_split := PyStr.split ":" header in
  let name := hd "" header_split in
  let '(arity, match_) :=
    if headers_contains headers (PyStr.lower name)
    then (arity + 1, Some true)
    else (arity - 1, None) in
  match header_split with
  | _ :: value :: _ =>
      let value := strip_join value in
      let header_val := headers_get headers (PyStr.strip name) in
      let header_val :=
        match header_val with
        | Some v => if PyStr.truthy v then Some (strip_join v) else Some v
        | None => None
        end in
      match header_val with
      | Some v =>
          if (PyStr.truthy v && PyStr.contains value v)%bool
          then (Some true, arity + 2)
          else if match_and match_ value then (Some false, arity)
          else (match_, arity)
      | None =>
          if match_and match_ value then (Some false, arity)
          else (match_, arity)
      end
  | _ => (match_, arity)
  end.

Fixpoint verb_headers_loop (headers : Headers)
    (declared : list string) (arity : Z) : loop_exit :=
  match declared with
  | [] => Fallthrough arity
  | header :: rest =>
      match verb_header_body headers header arity with
      | (Some false, arity) => Returned (false, arity)
      | (_, arity) => verb_headers_loop headers rest arity
      end
  end.

(** [DispatchInfo._verb_matching] *)
Definition _verb_matching (self : DispatchInfo)
    (query_params : gmap string string) (headers : Headers) : bool * Z :=
  match verb_params_loop query_params (params self) 0 with
  | Returned retval => retval
  | Fallthrough arity =>
      match verb_headers_loop headers (dispatch_headers self) arity with
      | Returned retval => retval
      | Fallthrough arity => (true, arity)
      end
  end.

(** [DispatchInfo.get_operation_id] *)
Definition get_operation_id (self : DispatchInfo) (request : Request)
    (query_params uri_params : gmap string string)
    : result (option string * Z * RestAnnotationType) :=
  '(retval, arity) ←
    match mapping_type self with
    | VERB => mret (_verb_matching self query_params (headers request))
    | REQUEST =>
        _request_matching self (method request) query_params uri_params
    | NONE =>
        _default_matching self (method request) query_params uri_params
    end;
  mret (if retval : bool then Some (operation_id self) else None,
        arity, mapping_type self).

End Rules.

(** ** The data values of the runtime

    [vmware.vapi.data.value] is not part of the sources; the constructors
    used by the handler and the task manager are kept, a structure holding
    its fields by name. *)

Unset Elimination Schemes.
Inductive DataValue : Type :=
| VoidValue
| BooleanValue (value : bool)
| StringValue (value : string)
| ListValue (items : list DataValue)
| StructValue (name : option string) (fields : list (string * DataValue)).
Set Elimination Schemes.

(** [vmware.vapi.core.MethodResult]: an output or an error with its name. *)
Inductive MethodResult : Type :=
| Success (output : DataValue)
| Failure (error_name : string) (error : DataValue).

(** ** [vmware/vapi/rest/handler.py] *)

Module Handler.

Import Rules.

(** The tables of [MetadataStore] read at request time. *)
Record MetadataStore : Type := {
  service_map : gmap string (gmap string OperationSummary);
  all_errors_response_code_map : gmap string Z
}.

Definition dquote : string := String (ascii_of_nat 34) EmptyString.

Definition msg_no_method_for_action (action : string) : string :=
  "No matching method available for the requested " +:+
  "action '" +:+ action +:+ "' on the URL".

Definition msg_no_method : string :=
  "No matching method available for the requested " +:+
  "URL and HTTP method".

Definition msg_invalid_task_param : string :=
  "Invalid value for " +:+ dquote +:+ TASK_REST_QUERY_PARAM +:+ dquote
  +:+ " query param".

(** The [for] loop of [_find_matching_operation], on the locals
    [operation_id], [arity] and [mapping_type]. *)
Fixpoint dispatch_loop (request : Request)
    (query_string_flat_dict uri_parameters : gmap string string)
    (dispatch_info_list : list DispatchInfo)
    (operation_id : option string) (arity : Z)
    (mapping_type : RestAnnotationType)
    : result (option string * Z * RestAnnotationType) :=
  match dispatch_info_list with
  | [] => mret (operation_id, arity, mapping_type)
  | dispatch_info :: rest =>
      '(curr_op_id, curr_arity, curr_type) ←
        get_operation_id dispatch_info request query_string_flat_dict
          uri_parameters;
      if (bool_decide (is_Some curr_op_id) && (arity <=? curr_arity))%bool
      then dispatch_loop request query_string_flat_dict uri_parameters rest
             curr_op_id curr_arity curr_type
      else dispatch_loop request query_string_flat_dict uri_parameters rest
             operation_id arity mapping_type
  end.

(** The first part of [_find_matching_operation]: the choice of the
    operation among the dispatch targets of the route. *)
Definition select_operation (request : Request)
    (uri_parameters query_string_flat_dict : gmap string string)
    (dispatch_info_list : list DispatchInfo)
    : result (string * RestAnnotationType) :=
  let scored :=
    '(operation_id, _, mapping_type) ←
      dispatch_loop request query_string_flat_dict uri_parameters
        dispatch_info_list None 0 NONE;
    match operation_id with
    | Some operation_id => mret (operation_id, mapping_type)
    | None =>
        match query_string_flat_dict !! RestAnnotations.ACTION_PARAM with
        | Some action => Raise (NotFound (msg_no_method_for_action action))
        | None => Raise (NotFound msg_no_method)
        end
    end in
  match dispatch_info_list with
  | [dispatch_info] =>
      if bool_decide (mapping_type dispatch_info ≠ VERB)
      then mret (operation_id dispatch_info, mapping_type dispatch_info)
      else scored
  | _ => scored
  end.

Section FindMatchingOperation.

(** [vmware.vapi.bindings.task_helper.get_task_operation_name], which is
    not part of the sources. *)
Variable get_task_operation_name : string -> string.

(** The second part: the task-invocation check. *)
Definition task_invocation (query_string_flat_dict : gmap string string)
    (operation_id : string) : result string :=
  match query_string_flat_dict !! TASK_REST_QUERY_PARAM with
  | Some is_task =>
      if String.eqb (PyStr.lower is_task) "true"
      then mret (get_task_operation_name operation_id)
      else Raise (BadRequest msg_invalid_task_param)
  | None => mret operation_id
  end.

(** [RESTHandler._find_matching_operation] *)
Definition _find_matching_operation (metadata : MetadataStore)
    (request : Request) (service_id : string)
    (uri_parameters query_string_flat_dict : gmap string string)
    (dispatch_info_list : list DispatchInfo)
    : result (string * RestAnnotationType) :=
  '(operation_id, mapping_type) ←
    select_operation request uri_parameters query_string_flat_dict
      dispatch_info_list;
  operation_id ← task_invocation query_string_flat_dict operation_id;
  operations ← getitem (service_map metadata) service_id;
  if bool_decide (is_Some (operations !! operation_id))
  then mret (operation_id, mapping_type)
  else Raise (NotFound msg_no_method).

End FindMatchingOperation.

Section SerializeOutput.

(** [vmware.vapi.rest.lib.vapi_to_http_error_map], which is not part of
    the sources. *)
Variable vapi_to_http_error_map : gmap string Z.

(** The [status] component of the tuple returned by
    [RESTHandler._serialize_output]; the body, the cookies and the
    headers are built by the serializers and do not feed into it. *)
Definition _serialize_output_status (metadata : MetadataStore)
    (request : Request) (service_id operation_id : string)
    (method_result : MethodResult) : result Z :=
  operations ← getitem (service_map metadata) service_id;
  operation_summary ← getitem operations operation_id;
  match method_result with
  | Success _ =>
      let status :=
        match success_response_code operation_summary with
        | Some code => code
        | None => 200
        end in
      let status :=
        if String.eqb (method request) "DELETE" then 204 else status in
      mret status
  | Failure error_name _ =>
      let status := all_errors_response_code_map metadata !! error_name in
      match status with
      | Some status => mret status
      | None => mret (default 500 (vapi_to_http_error_map !! error_name))
      end
  end.

End SerializeOutput.

End Handler.

(** *** [StructValue] fields *)

Fixpoint fields_set (field : string) (value : DataValue)
    (fields : list (string * DataValue)) : list (string * DataValue) :=
  match fields with
  | [] => [(field, value)]
  | (f, v) :: rest =>
      if String.eqb f field then (field, value) :: rest
      else (f, v) :: fields_set field value rest
  end.

Fixpoint fields_get (field : string) (fields : list (string * DataValue))
    : option DataValue :=
  match fields with
  | [] => None
  | (f, v) :: rest => if String.eqb f field then Some v else fields_get field rest
  end.

(** [StructValue.set_field] *)
Definition set_field (self : DataValue) (field : string) (value : DataValue)
    : DataValue :=
  match self with
  | StructValue name fields => StructValue name (fields_set field value fields)
  | other => other
  end.

(** [StructValue.get_field]: a missing field raises [CoreException]. *)
Definition get_field (self : DataValue) (field : string) : result DataValue :=
  match self with
  | StructValue _ fields =>
      match fields_get field fields with
      | Some v => Ok v
      | None => Raise CoreException
      end
  | _ => Raise AttributeError
  end.

(** [v == StringValue(s)] *)
Definition eq_StringValue (v : DataValue) (s : string) : bool :=
  match v with
  | StringValue value => String.eqb value s
  | _ => false
  end.

(** [v == BooleanValue(b)] *)
Definition eq_BooleanValue (v : DataValue) (b : bool) : bool :=
  match v with
  | BooleanValue value => Bool.eqb value b
  | _ => false
  end.

(** ** [vmware/vapi/task/task_manager_impl.py] *)

Module TaskManager.

Definition URI_DELIMITER : string := ":".
Definition TASK_EXPIRE_DURATION_SEC : Z := 24 * 60 * 60.
Definition PENDING : string := "PENDING".
Definition SUCCEEDED : string := "SUCCEEDED".
Definition FAILED : string := "FAILED".

(** [vmware.vapi.bindings.type.ReferenceType], by the name of the type it
    resolves to. *)
Record ReferenceType : Type := { resolved_type : string }.

(** [TaskSummary] *)
Record TaskSummary : Type := {
  info : DataValue;
  errors : list string
}.

(** [TaskSummary.__init__] *)
Definition new_TaskSummary (info : DataValue) (errors : list ReferenceType)
    : TaskSummary :=
  {| info := info; errors := resolved_type <$> errors |}.

(** [TaskManagerImpl]; a [datetime] is a number of microseconds. *)
Record TaskManagerImpl : Type := {
  task_map : gmap string TaskSummary;
  tasks_to_remove : gset (string * Z);
  tasks_to_cancel : gset string
}.

(** [TaskManagerImpl.__init__] *)
Definition new_TaskManagerImpl : TaskManagerImpl :=
  {| task_map := ∅; tasks_to_remove := ∅; tasks_to_cancel := ∅ |}.

(** What a call reads from its surroundings: the clock
    ([datetime.utcnow()]), the random identifier ([uuid.uuid4()]), the user
    of the security context, and the order in which the copy
    [set(self.tasks_to_remove)] is iterated. *)
Record Env : Type := {
  utcnow : Z;
  uuid4 : string;
  sec_user : option string;
  iteration : list (string * Z)
}.

(** [timedelta.total_seconds() < seconds] *)
Definition total_seconds_lt (time_elapsed seconds : Z) : bool :=
  time_elapsed <? seconds * 1000000.

(** [TaskManagerImpl._create_task_id] *)
Definition _create_task_id (base_id service_id : string) : string :=
  base_id +:+ URI_DELIMITER +:+ service_id.

(** The loop of [_remove_expired_task] over the copy of the set. *)
Fixpoint remove_expired_loop (curr_time : Z) (tasks_list : list (string * Z))
    (self : TaskManagerImpl) : TaskManagerImpl :=
  match tasks_list with
  | [] => self
  | (task_id, t) :: rest =>
      let time_elapsed := curr_time - t in
      if total_seconds_lt time_elapsed TASK_EXPIRE_DURATION_SEC
      then self
      else remove_expired_loop curr_time rest
             {| task_map := delete task_id (task_map self);
                tasks_to_remove := tasks_to_remove self ∖ {[ (task_id, t) ]};
                tasks_to_cancel := tasks_to_cancel self |}
  end.

(** [TaskManagerImpl._remove_expired_task] *)
Definition _remove_expired_task (env : Env) (self : TaskManagerImpl)
    : TaskManagerImpl :=
  remove_expired_loop (utcnow env) (iteration env) self.

(** [dict.setdefault] *)
Definition setdefault (task_id : string) (task_summary : TaskSummary)
    (m : gmap string TaskSummary) : gmap string TaskSummary :=
  match m !! task_id with
  | Some _ => m
  | None => <[task_id := task_summary]> m
  end.

Section CreateTask.

(** [com.vmware.vapi.std.LocalizableMessage] and the conversion
    [TypeConverter.convert_to_vapi] of one, which are not part of the
    sources. *)
Variable LocalizableMessage : Type.
Variable convert_to_vapi : LocalizableMessage -> DataValue.

(** The [info] structure built by [create_task]. *)
Definition build_task_info (env : Env)
    (description : option LocalizableMessage)
    (service_id operation_id : string) (cancelable : bool) : DataValue :=
  let task_info := StructValue None [] in
  let task_info :=
    match description with
    | Some description =>
        set_field task_info "description" (convert_to_vapi description)
    | None =>
        let desc_value := StructValue None [] in
        let desc_value := set_field desc_value "id" (StringValue "") in
        let desc_value :=
          set_field desc_value "default_message" (StringValue "") in
        let desc_value := set_field desc_value "args" (ListValue []) in
        set_field task_info "description" desc_value
    end in
  let task_info :=
    match sec_user env with
    | Some user => set_field task_info "user" (StringValue user)
    | None => task_info
    end in
  let task_info := set_field task_info "service" (StringValue service_id) in
  let task_info :=
    set_field task_info "operation" (StringValue operation_id) in
  let task_info :=
    set_field task_info "cancelable"
      (BooleanValue (if cancelable then true else false)) in
  set_field task_info "status" (StringValue PENDING).

(** [TaskManagerImpl.create_task] *)
Definition create_task (env : Env)
    (description : option LocalizableMessage)
    (service_id operation_id : string) (cancelable : bool)
    (error_types : list ReferenceType) (id_ : option string)
    (self : TaskManagerImpl) : string * TaskManagerImpl :=
  let task_info :=
    build_task_info env description service_id operation_id cancelable in
  let base_id := default (uuid4 env) id_ in
  let task_id := _create_task_id base_id service_id in
  let task_summary := new_TaskSummary task_info error_types in
  let self :=
    {| task_map := setdefault task_id task_summary (task_map self);
       tasks_to_remove := tasks_to_remove self;
       tasks_to_cancel := tasks_to_cancel self |} in
  let self := _remove_expired_task env self in
  (task_id, self).

End CreateTask.

(** [TaskManagerImpl.get_summary] *)
Definition get_summary (task_id : string) (self : TaskManagerImpl)
    : result TaskSummary :=
  Rules.getitem (task_map self) task_id.

(** [TaskManagerImpl.get_info] *)
Definition get_info (task_id : string) (self : TaskManagerImpl)
    : result DataValue :=
  info <$> Rules.getitem (task_map self) task_id.

(** [TaskManagerImpl.set_info]: the outcome of the call and the manager
    it leaves behind. *)
Definition set_info (env : Env) (task_id : string) (new_info : DataValue)
    (self : TaskManagerImpl) : result unit * TaskManagerImpl :=
  match task_map self !! task_id with
  | None => (Raise (KeyError task_id), self)
  | Some task_summary =>
      let self :=
        {| task_map :=
             <[task_id := {| info := new_info;
                             errors := errors task_summary |}]>
               (task_map self);
           tasks_to_remove := tasks_to_remove self;
           tasks_to_cancel := tasks_to_cancel self |} in
      match get_field new_info "status" with
      | Raise e => (Raise e, self)
      | Ok status =>
          if (eq_StringValue status SUCCEEDED
              || eq_StringValue status FAILED)%bool
          then (Ok (),
                {| task_map := task_map self;
                   tasks_to_remove :=
                     tasks_to_remove self ∪ {[ (task_id, utcnow env) ]};
                   tasks_to_cancel := tasks_to_cancel self ∖ {[ task_id ]} |})
          else (Ok (), self)
      end
  end.

(** [TaskManagerImpl.remove_task] *)
Definition remove_task (task_id : string) (self : TaskManagerImpl)
    : TaskManagerImpl :=
  {| task_map := delete task_id (task_map self);
     tasks_to_remove := tasks_to_remove self;
     tasks_to_cancel := tasks_to_cancel self |}.

(** [TaskManagerImpl.get_infos] *)
Definition get_infos (self : TaskManagerImpl) : gmap string DataValue :=
  info <$> task_map self.

(** [TaskManagerImpl.mark_for_cancellation] *)
Definition mark_for_cancellation (task_id : string) (self : TaskManagerImpl)
    : result unit * TaskManagerImpl :=
  match get_info task_id self ≫= (fun i => get_field i "cancelable") with
  | Raise e => (Raise e, self)
  | Ok cancelable =>
      if eq_BooleanValue cancelable true
      then (Ok (),
            {| task_map := task_map self;
               tasks_to_remove := tasks_to_remove self;
               tasks_to_cancel := tasks_to_cancel self ∪ {[ task_id ]} |})
      else (Ok (), self)
  end.

(** [TaskManagerImpl.is_marked_for_cancellation] *)
Definition is_marked_for_cancellation (task_id : string)
    (self : TaskManagerImpl) : bool :=
  bool_decide (task_id ∈ tasks_to_cancel self).


End TaskManager.

(** ** [vmware/vapi/rest/rules.py]: the table of routing rules *)

Module RoutingRules.

Import Rules.

(** [werkzeug.routing.Rule], by the arguments it is built from. *)
Record Rule : Type := {
  rule : string;
  endpoint : string * list DispatchInfo;
  methods : list string
}.

(** The keys of [rules_dict]: service, URL and HTTP method. *)
Definition RuleKey : Type := string * string * string.

(** [rules_dict[key].append(dispatch_info)] on a [defaultdict(list)], the
    dictionary by its items in the order of insertion. *)
Fixpoint rules_dict_append (key : RuleKey) (dispatch_info : DispatchInfo)
    (rules_dict : list (RuleKey * list DispatchInfo))
    : list (RuleKey * list DispatchInfo) :=
  match rules_dict with
  | [] => [(key, [dispatch_info])]
  | (k, infos) :: rest =>
      if bool_decide (k = key) then (k, infos ++ [dispatch_info]) :: rest
      else (k, infos) :: rules_dict_append key dispatch_info rest
  end.

(** The [Rule] built from an item of [rules_dict]. *)
Definition new_Rule (item : RuleKey * list DispatchInfo) : Rule :=
  let '((service_id, service_url, http_method), dispatch_info) := item in
  {| rule := service_url;
     endpoint := (service_id, dispatch_info);
     methods := [http_method] |}.

Section RestRules.

(** [vmware.vapi.bindings.task_helper.get_non_task_operation_name], which
    is not part of the sources. *)
Variable get_non_task_operation_name : string -> string.

(** The inner loop of [rest_rules], over the operations of a service. *)
Fixpoint rest_rules_operations (self : RoutingRuleGenerator)
    (service_id : string) (service_info : list (string * OperationSummary))
    (rules_dict : list (RuleKey * list DispatchInfo))
    : result (list (RuleKey * list DispatchInfo)) :=
  match service_info with
  | [] => mret rules_dict
  | (operation_id, operation_summary) :: rest =>
      generated ←
        generate_mapping_rule get_non_task_operation_name self service_id
          operation_id operation_summary;
      match generated with
      | None => Raise TypeError
      | Some (service_url, http_method, dispatch_info) =>
          rest_rules_operations self service_id rest
            (rules_dict_append (service_id, service_url, http_method)
               dispatch_info rules_dict)
      end
  end.

(** The outer loop of [rest_rules], over the services of the metadata. *)
Fixpoint rest_rules_services (self : RoutingRuleGenerator)
    (service_map : list (string * list (string * OperationSummary)))
    (rules_dict : list (RuleKey * list DispatchInfo))
    : result (list (RuleKey * list DispatchInfo)) :=
  match service_map with
  | [] => mret rules_dict
  | (service_id, service_info) :: rest =>
      rules_dict ←
        rest_rules_operations self service_id service_info rules_dict;
      rest_rules_services self rest rules_dict
  end.

(** [RoutingRuleGenerator.rest_rules], on the items of
    [self._metadata.service_map] and of its values in the order of
    iteration. *)
Definition rest_rules (self : RoutingRuleGenerator)
    (service_map : list (string * list (string * OperationSummary)))
    : result (list Rule) :=
  match rest_rules_services self service_map [] with
  | Ok rules_dict => Ok (new_Rule <$> rules_dict)
  | Raise e => Raise e
  end.

End RestRules.

End RoutingRules.

(** ** [vmware/vapi/rest/handler.py]: the input data of a request *)

Module InputData.

(** The Python values that the JSON body, the query string and the headers
    of a request are decoded to; a dictionary by its items in the order of
    insertion. *)
Unset Elimination Schemes.
Inductive PyVal : Type :=
| PyNone
| PyBool (b : bool)
| PyInt (n : Z)
| PyDecimal (literal : string)
| PyStr (s : string)
| PyList (items : list PyVal)
| PyDict (items : list (string * PyVal)).
Set Elimination Schemes.

(** [d.get(key)] *)
Fixpoint dict_get (key : string) (d : list (string * PyVal)) : option PyVal :=
  match d with
  | [] => None
  | (k, v) :: rest => if String.eqb k key then Some v else dict_get key rest
  end.

(** [d[key] = value] *)
Fixpoint dict_set (key : string) (value : PyVal) (d : list (string * PyVal))
    : list (string * PyVal) :=
  match d with
  | [] => [(key, value)]
  | (k, v) :: rest =>
      if String.eqb k key then (key, value) :: rest
      else (k, v) :: dict_set key value rest
  end.

(** [RESTHandler._input_data_update] with the dictionary [update_data] as
    a value, the argument the recursion descends on. *)
Fixpoint input_data_update_value (input_data : list (string * PyVal))
    (update_data : PyVal) {struct update_data} : list (string * PyVal) :=
  match update_data with
  | PyDict update_items =>
      (fix loop (update_items : list (string * PyVal))
                (tmp : list (string * PyVal)) {struct update_items}
           : list (string * PyVal) :=
         match update_items with
         | [] => tmp
         | (key, value) :: rest =>
             match dict_get key tmp, value with
             | Some (PyDict old), PyDict _ =>
                 loop rest
                   (dict_set key
                      (PyDict (input_data_update_value old value)) tmp)
             | _, _ => loop rest (dict_set key value tmp)
             end
         end) update_items input_data
  | _ => input_data
  end.

(** [RESTHandler._input_data_update] *)
Definition _input_data_update (input_data update_data : list (string * PyVal))
    : list (string * PyVal) :=
  input_data_update_value input_data (PyDict update_data).

(** [DataValueDeserializer._change_parameter_structure]; [None] stands for
    the [IndexError] that [names.pop(0)] raises on an empty list. *)
Fixpoint _change_parameter_structure (output : list (string * PyVal))
    (names : list string) (value : PyVal) : option (list (string * PyVal)) :=
  match names with
  | [] => None
  | name :: names =>
      match names with
      | _ :: _ =>
          let sub_param_dict :=
            match dict_get name output with
            | Some (PyDict d) => d
            | _ => []
            end in
          changed ← _change_parameter_structure sub_param_dict names value;
          Some (dict_set name (PyDict changed) output)
      | [] => Some (dict_set name value output)
      end
  end.

End InputData.

(** * Specification-side definitions *)

Module Spec.

Import Metamodel Rules.

(** A parameter of the identifier type. *)
Definition is_id_param (p : string * FieldInfo) : bool :=
  (is_BUILTIN (category (type p.2)) && is_ID (builtin_type (type p.2)))%bool.

(** The name of the first declared parameter of the identifier type. *)
Definition first_id_param (param_info_map : list (string * FieldInfo))
    : option string :=
  fst <$> List.find is_id_param param_info_map.

(** [base/{id}] in the syntax of the routing library. *)
Definition with_id (base name : string) : string :=
  base +:+ "/<string:" +:+ name +:+ ">".

(** The route table of the specification: URL and verb by operation name
    and by the identifier parameter, if any. *)
Definition route_table (base : string) (id_param : option string)
    (operation_id : string) : string * string :=
  let on_id verb :=
    match id_param with
    | Some name => (with_id base name, verb)
    | None => (base, "POST")
    end in
  if String.eqb operation_id "list" then (base, "GET")
  else if String.eqb operation_id "create" then (base, "POST")
  else if String.eqb operation_id "delete" then on_id "DELETE"
  else if String.eqb operation_id "get" then on_id "GET"
  else if String.eqb operation_id "update" then on_id "PATCH"
  else if String.eqb operation_id "set" then on_id "PUT"
  else on_id "POST".

(** The operation that the verb of a request stands for. *)
Definition verb_operation (http_method : string) (has_path_id : bool)
    : option string :=
  if String.eqb http_method "GET"
  then Some (if has_path_id then "get" else "list")
  else if String.eqb http_method "PATCH" then Some "update"
  else if String.eqb http_method "DELETE" then Some "delete"
  else if String.eqb http_method "POST" then Some "create"
  else if String.eqb http_method "PUT" then Some "set"
  else if String.eqb http_method "HEAD" then Some "get"
  else None.

(** The override by a [~action] query parameter with a non-empty value. *)
Definition action_override (query_params : gmap string string)
    (derived_id : string) : string :=
  match query_params !! "~action" with
  | Some action =>
      if PyStr.truthy action then PyStr.replace "-" "_" action else derived_id
  | None => derived_id
  end.

(** *** Declared query predicates [key] or [key=value] *)







(** *** Declared header predicates [name] or [name:value] *)











(** The sum of the scores of a list of predicates. *)
Definition total {A : Type} (score : A -> Z) (predicates : list A) : Z :=
  foldr (fun p acc => score p + acc) 0 predicates.

(** The descriptor evaluates, on the request, to a verdict and an arity. *)
Definition evaluates (request : Request)
    (query_params uri_params : gmap string string) (d : DispatchInfo)
    (verdict : bool) (arity : Z) : Prop :=
  get_operation_id d request query_params uri_params
  = Ok (if verdict then Some (operation_id d) else None, arity,
        mapping_type d).

(** The descriptor evaluates, and if it matches, its arity is in [bound]. *)
Definition scores_within (request : Request)
    (query_params uri_params : gmap string string) (bound : Z -> Prop)
    (d : DispatchInfo) : Prop :=
  ∃ verdict arity,
    evaluates request query_params uri_params d verdict arity
    ∧ (verdict = true → bound arity).

End Spec.

(** * Further specification-side definitions *)

Module SpecMore.

Import TaskManager.

(** The entry has been in the removal set for 24 hours or more. *)
Definition expired (curr_time : Z) (entry : string * Z) : bool :=
  negb (total_seconds_lt (curr_time - entry.2) TASK_EXPIRE_DURATION_SEC).

(** The entries the sweep gets through: the longest prefix of the iteration
    whose entries have all expired. *)
Fixpoint expired_prefix (curr_time : Z) (entries : list (string * Z))
    : list (string * Z) :=
  match entries with
  | [] => []
  | entry :: rest =>
      if expired curr_time entry
      then entry :: expired_prefix curr_time rest
      else []
  end.

(** The entries are iterated from the oldest to the youngest. *)
Fixpoint chronological (entries : list (string * Z)) : Prop :=
  match entries with
  | [] => True
  | entry :: rest =>
      Forall (fun later => entry.2 ≤ later.2) rest ∧ chronological rest
  end.

(** The task map without the tasks of the entries. *)
Definition without (entries : list (string * Z))
    (m : gmap string TaskSummary) : gmap string TaskSummary :=
  foldl (fun m entry => delete entry.1 m) m entries.

End SpecMore.

Module SpecUrl.

(** The characters of a string. *)
Fixpoint chars (s : string) : list ascii :=
  match s with
  | EmptyString => []
  | String c s' => c :: chars s'
  end.

(** Neither an underscore, nor a dot, nor an upper-case ASCII letter. *)
Definition url_char (c : ascii) : bool :=
  negb (Ascii.eqb c "_" || Ascii.eqb c "." || PyStr.ascii_in_range 65 90 c).

(** The string holds ASCII characters only.  On such a string [str.lower]
    changes the letters A to Z and nothing else, as [PyStr.lower] does. *)
Definition ascii_text (s : string) : Prop :=
  forallb (fun c => Nat.ltb (nat_of_ascii c) 128) (chars s) = true.

End SpecUrl.

Module SpecInput.

Import InputData.

(** What a key holds after an update with [value]: two dictionaries are
    merged by [merge], anything else is replaced by [value]. *)
Definition updated (merge : list (string * PyVal) -> list (string * PyVal)
                             -> list (string * PyVal))
    (old : option PyVal) (value : PyVal) : PyVal :=
  match old, value with
  | Some (PyDict old_items), PyDict new_items =>
      PyDict (merge old_items new_items)
  | _, _ => value
  end.

(** The value at the end of a path of names through nested dictionaries. *)
Fixpoint path_get (names : list string) (d : list (string * PyVal))
    : option PyVal :=
  match names with
  | [] => None
  | name :: names' =>
      match names' with
      | [] => dict_get name d
      | _ :: _ =>
          match dict_get name d with
          | Some (PyDict sub) => path_get names' sub
          | _ => None
          end
      end
  end.

(** The two paths part at some name: neither continues the other. *)
Fixpoint diverge (p q : list string) : Prop :=
  match p, q with
  | a :: p', b :: q' => a ≠ b ∨ (a = b ∧ diverge p' q')
  | _, _ => False
  end.

End SpecInput.

Module SpecRoutes.

Import Rules RoutingRules.

Section Generated.

Variable get_non_task_operation_name : string -> string.

(** The key and the descriptor generated for each operation of a service,
    in the order of iteration. *)
Fixpoint generated_for_service (self : RoutingRuleGenerator)
    (service_id : string) (service_info : list (string * OperationSummary))
    : result (list (RuleKey * DispatchInfo)) :=
  match service_info with
  | [] => Ok []
  | (operation_id, operation_summary) :: rest =>
      match generate_mapping_rule get_non_task_operation_name self
              service_id operation_id operation_summary with
      | Raise e => Raise e
      | Ok None => Raise TypeError
      | Ok (Some (service_url, http_method, dispatch_info)) =>
          match generated_for_service self service_id rest with
          | Raise e => Raise e
          | Ok others =>
              Ok (((service_id, service_url, http_method), dispatch_info)
                  :: others)
          end
      end
  end.

(** The same for every service of the metadata, in the order of
    iteration. *)
Fixpoint generated (self : RoutingRuleGenerator)
    (service_map : list (string * list (string * OperationSummary)))
    : result (list (RuleKey * DispatchInfo)) :=
  match service_map with
  | [] => Ok []
  | (service_id, service_info) :: rest =>
      match generated_for_service self service_id service_info with
      | Raise e => Raise e
      | Ok first =>
          match generated self rest with
          | Raise e => Raise e
          | Ok others => Ok (first ++ others)
          end
      end
  end.

End Generated.

(** The descriptors generated under a key, in the order of generation. *)
Definition descriptors_of (key : RuleKey)
    (routes : list (RuleKey * DispatchInfo)) : list DispatchInfo :=
  snd <$> filter (fun route => route.1 = key) routes.

(** The dictionary after the routes are appended to it one by one. *)
Definition append_all (routes : list (RuleKey * DispatchInfo))
    (rules_dict : list (RuleKey * list DispatchInfo))
    : list (RuleKey * list DispatchInfo) :=
  foldl (fun d route => rules_dict_append route.1 route.2 d) rules_dict routes.

(** The items of the dictionary are the keys that have descriptors among
    the routes, each with its descriptors in the order of the routes. *)
Definition grouped (d : list (RuleKey * list DispatchInfo))
    (routes : list (RuleKey * DispatchInfo)) : Prop :=
  NoDup d.*1
  ∧ ∀ k l, (k, l) ∈ d ↔ l = descriptors_of k routes ∧ l ≠ [].

End SpecRoutes.

(** * Example inputs *)

Module Examples.

Import Metamodel Rules.

(** An operation [get] whose second parameter is of the identifier type. *)
Definition get_by_id_summary : OperationSummary :=
  {| param_info_map :=
       [("verbose", {| type := {| category := BUILTIN;
                                  builtin_type := Some BOOLEAN |} |});
        ("widget", {| type := {| category := BUILTIN;
                                 builtin_type := Some ID |} |})];
     request_mapping_metadata := None;
     verb_metadata := None;
     success_response_code := None;
     response_headers_map := None;
     response_body_name := None |}.

(** A stand-in for [get_non_task_operation_name]: the task suffix is cut
    off. *)
Definition non_task_name (operation_id : string) : string :=
  match PyStr.split "$" operation_id with
  | [name; "task"] => name
  | _ => operation_id
  end.








(** Predicate-based descriptors that share a route, and a request. *)
Definition by_key_a : DispatchInfo :=
  new_DispatchInfo VERB "op_a" (Some ["x"]) None None.
Definition by_key_b : DispatchInfo :=
  new_DispatchInfo VERB "op_b" (Some ["x"]) None None.
Definition by_value : DispatchInfo :=
  new_DispatchInfo VERB "op_value" (Some ["x=1"]) None None.
Definition by_other_key : DispatchInfo :=
  new_DispatchInfo VERB "op_other" (Some ["y"]) None None.

Definition query_x1 : gmap string string := <["x" := "1"]> ∅.

Definition get_request : Request :=
  {| method := "GET"; headers := environ_headers [] |}.

(** A metadata store with one service that has the single operation
    [list], without annotations. *)
Definition plain_summary : OperationSummary :=
  {| param_info_map := [];
     request_mapping_metadata := None;
     verb_metadata := None;
     success_response_code := None;
     response_headers_map := None;
     response_body_name := None |}.

Definition widgets_metadata : Handler.MetadataStore :=
  {| Handler.service_map :=
       <["com.example.widgets" := <["list" := plain_summary]> ∅]> ∅;
     Handler.all_errors_response_code_map := ∅ |}.

(** A stand-in for [get_task_operation_name]: the task suffix is added. *)
Definition task_name (operation_id : string) : string :=
  operation_id +:+ TASK_OPERATION.

(** The store of a service whose operation [remove] declares the success
    code 202. *)
Definition accepted_summary : OperationSummary :=
  {| param_info_map := [];
     request_mapping_metadata := None;
     verb_metadata := None;
     success_response_code := Some 202;
     response_headers_map := None;
     response_body_name := None |}.

Definition jobs_metadata : Handler.MetadataStore :=
  {| Handler.service_map :=
       <["com.example.jobs" := <["remove" := accepted_summary]> ∅]> ∅;
     Handler.all_errors_response_code_map := ∅ |}.

Definition delete_request : Request :=
  {| method := "DELETE"; headers := environ_headers [] |}.

Definition post_request : Request :=
  {| method := "POST"; headers := environ_headers [] |}.

(** A localizable message and its conversion to a structure value. *)
Record Message : Type := {
  message_id : string;
  default_message : string;
  args : list string
}.

Definition message_value (m : Message) : DataValue :=
  StructValue (Some "com.vmware.vapi.std.localizable_message")
    [("id", StringValue (message_id m));
     ("default_message", StringValue (default_message m));
     ("args", ListValue (StringValue <$> args m))].

(** Clock readings, in microseconds. *)
Definition minutes (n : Z) : Z := n * 60 * 1000000.
Definition hours (n : Z) : Z := minutes (n * 60).

(** The surroundings of a call at time [now] that iterates the removal set
    in the order [order]. *)
Definition at_time (now : Z) (order : list (string * Z)) : TaskManager.Env :=
  {| TaskManager.utcnow := now;
     TaskManager.uuid4 := "3f2c9a4e-0000-4000-8000-000000000001";
     TaskManager.sec_user := Some "administrator";
     TaskManager.iteration := order |}.

Definition create (now : Z) (order : list (string * Z)) (cancelable : bool)
    (base_id : string) (self : TaskManager.TaskManagerImpl)
    : string * TaskManager.TaskManagerImpl :=
  TaskManager.create_task Message message_value (at_time now order) None
    "com.example.jobs" "run$task" cancelable [] (Some base_id) self.

(** The info of a task of [com.example.jobs] with the given status. *)
Definition info_with_status (status : string) (cancelable : bool) : DataValue :=
  StructValue None
    [("service", StringValue "com.example.jobs");
     ("operation", StringValue "run$task");
     ("cancelable", BooleanValue cancelable);
     ("status", StringValue status)].

(** Task [a] is created and succeeds at time 0. *)
Definition a_succeeded : TaskManager.TaskManagerImpl :=
  let self := (create 0 [] true "a" TaskManager.new_TaskManagerImpl).2 in
  (TaskManager.set_info (at_time 0 []) "a:com.example.jobs"
     (info_with_status "SUCCEEDED" true) self).2.

(** Then task [b] is created after one hour and succeeds after twelve. *)
Definition a_then_b_succeeded : TaskManager.TaskManagerImpl :=
  let self :=
    (create (hours 1) [("a:com.example.jobs", 0)] true "b" a_succeeded).2 in
  (TaskManager.set_info (at_time (hours 12) []) "b:com.example.jobs"
     (info_with_status "SUCCEEDED" true) self).2.

(** Task [a] is created cancelable, marked, and removed. *)
Definition a_marked_removed : TaskManager.TaskManagerImpl :=
  let self := (create 0 [] true "a" TaskManager.new_TaskManagerImpl).2 in
  let self :=
    (TaskManager.mark_for_cancellation "a:com.example.jobs" self).2 in
  TaskManager.remove_task "a:com.example.jobs" self.

End Examples.

(** * Further example inputs *)

Module ExamplesMore.

Import Metamodel Rules InputData.

(** The identifier of the task [a] of the service [com.example.jobs]. *)
Definition task_a : string := "a:com.example.jobs".
Definition task_b : string := "b:com.example.jobs".

(** Task [a], cancelable, just created. *)
Definition a_created : TaskManager.TaskManagerImpl :=
  (Examples.create 0 [] true "a" TaskManager.new_TaskManagerImpl).2.

Definition a_created_summary : TaskManager.TaskSummary :=
  TaskManager.new_TaskSummary
    (TaskManager.build_task_info Examples.Message Examples.message_value
       (Examples.at_time 0 []) None "com.example.jobs" "run$task" true) [].

Definition a_summary (status : string) : TaskManager.TaskSummary :=
  {| TaskManager.info := Examples.info_with_status status true;
     TaskManager.errors := [] |}.

(** Fixed-action descriptors of one route, and a request with an action. *)
Definition start_action : DispatchInfo :=
  new_DispatchInfo REQUEST "start" None None (Some "start").
Definition stop_action : DispatchInfo :=
  new_DispatchInfo REQUEST "stop" None None (Some "stop").

Definition query_action (a : string) : gmap string string :=
  <["action" := a]> ∅.

(** Plain descriptors of one route, and a request with [~action]. *)
Definition start_plain : DispatchInfo :=
  new_DispatchInfo NONE "start" None None None.
Definition stop_plain : DispatchInfo :=
  new_DispatchInfo NONE "stop" None None None.

Definition query_tilde_action (a : string) : gmap string string :=
  <["~action" := a]> ∅.

Definition options_request : Request :=
  {| method := "OPTIONS"; headers := environ_headers [] |}.

(** An operation with a RequestMapping annotation. *)
Definition mapped_summary : OperationSummary :=
  {| param_info_map := [];
     request_mapping_metadata :=
       Some {| elements :=
                 <["method" := {| string_value := "POST";
                                  list_value := None |}]>
                 (<["value" := {| string_value := "/jobs/{id}?action=cancel";
                                  list_value := None |}]> ∅) |};
     verb_metadata := None;
     success_response_code := None;
     response_headers_map := None;
     response_body_name := None |}.

(** A store that declares the status 409 for one error. *)
Definition conflict_metadata : Handler.MetadataStore :=
  {| Handler.service_map :=
       <["com.example.widgets" := <["list" := Examples.plain_summary]> ∅]> ∅;
     Handler.all_errors_response_code_map :=
       <["com.example.errors.conflict" := 409]> ∅ |}.

(** Input data from the path and from the body of a request. *)
Definition path_data : list (string * PyVal) :=
  [("id", PyStr "w-1");
   ("spec", PyDict [("query_long", PyInt 1)])].

Definition body_data : list (string * PyVal) :=
  [("id", PyStr "w-2");
   ("spec", PyDict [("body_list", PyList [PyInt 2; PyInt 3])])].

Definition header_data : list (string * PyVal) :=
  [("accept", PyStr "application/json")].

End ExamplesMore.

(** * Properties *)

Section RouteGeneration.

Import Metamodel Rules Spec.

Variable get_non_task_operation_name : string -> string.

Lemma append_empty_r (s : string) : s +:+ "" = s.
Proof.
  induction s as [|c s IH]; [done |].
  change (String c (s +:+ "") = String c s). by f_equal.
Qed.

Lemma _get_id_suffix_first_id_param (pm : list (string * FieldInfo)) :
  _get_id_suffix pm =
    match first_id_param pm with
    | Some name => "/<string:" +:+ name +:+ ">"
    | None => ""
    end.
Proof.
  unfold first_id_param.
  induction pm as [|[name fi] pm IH]; simpl; [done |].
  unfold is_id_param at 1; simpl.
  destruct (is_BUILTIN _ && is_ID _)%bool; simpl; [done | exact IH].
Qed.

Lemma not_crud_op (operation_id : string) :
  operation_id ≠ "list" → operation_id ≠ "create" →
  operation_id ≠ "delete" → operation_id ≠ "get" →
  operation_id ≠ "update" → operation_id ≠ "set" →
  negb (bool_decide (operation_id ∈ _crud_ops)) = true.
Proof.
  intros. apply negb_true_iff, bool_decide_eq_false.
  unfold _crud_ops. rewrite !elem_of_cons, elem_of_nil. tauto.
Qed.

(** C1. An operation without RequestMapping and Verb annotations gets the
    route of the table: [list] is GET on the base URL, [create] is POST on
    the base URL, [delete], [get], [update] and [set] are DELETE, GET, PATCH
    and PUT on [base/{id}] when a parameter of the identifier type exists
    and POST on the base URL otherwise, and any other operation is POST on
    the base URL, followed by [/{id}] when such a parameter exists. *)
Theorem C1_route_of_unannotated_operation
    (rest_prefix service_id operation_id : string)
    (operation_summary : OperationSummary) :
  request_mapping_metadata operation_summary = None →
  verb_metadata operation_summary = None →
  let generator := new_RoutingRuleGenerator rest_prefix in
  let base := _generate_service_base_url (_rest_prefix generator) service_id in
  let '(url, verb) :=
    route_table base (first_id_param (param_info_map operation_summary))
      operation_id in
  generate_mapping_rule get_non_task_operation_name generator service_id
    operation_id operation_summary
  = Ok (Some (url, verb,
              default_dispatch_info get_non_task_operation_name
                operation_id)).
Proof.
  intros Hreq Hverb generator base.
  unfold generate_mapping_rule, route_table. simpl _mapping_rules.
  set (prefix := _rest_prefix generator) in *.
  cbn [generate_mapping_rule_loop is_VerbMappingRule rule_match].
  rewrite !andb_false_r.
  unfold has_request_mapping_metadata, has_verb_metadata.
  rewrite Hreq, Hverb.
  rewrite (bool_decide_eq_false_2 (is_Some None)) by (by intros [? ?]).
  assert (Hskip : ∀ (X : result (option Route)),
    (if (String.eqb service_id "com.vmware.cis.session" && true)%bool
     then X else X) = X) by (intros; by destruct (_ && _)%bool).
  rewrite Hskip.
  pose proof (_get_id_suffix_first_id_param
                (param_info_map operation_summary)) as Hsfx.
  destruct (String.eqb_spec operation_id "list") as [->|?]; [done |].
  destruct (String.eqb_spec operation_id "create") as [->|?]; [done |].
  unfold rule_url.
  unfold DeleteMappingRule_url, GetMappingRule_url, PatchMappingRule_url,
    PutMappingRule_url, PostActionMappingRule_url.
  fold base. rewrite Hsfx. unfold with_id.
  destruct (String.eqb_spec operation_id "delete") as [->|?];
    [by destruct (first_id_param _) |].
  destruct (String.eqb_spec operation_id "get") as [->|?];
    [by destruct (first_id_param _) |].
  destruct (String.eqb_spec operation_id "update") as [->|?];
    [by destruct (first_id_param _) |].
  destruct (String.eqb_spec operation_id "set") as [->|?];
    [by destruct (first_id_param _) |].
  rewrite not_crud_op by done.
  destruct (first_id_param _); [done |].
  by rewrite append_empty_r.
Qed.

End RouteGeneration.

Lemma C1_route_of_unannotated_operation_witness :
  Rules.generate_mapping_rule Examples.non_task_name
    (Rules.new_RoutingRuleGenerator "/rest") "com.example.Widget_store"
    "get" Examples.get_by_id_summary
  = Ok (Some ("/rest/com/example/widget-store/<string:widget>", "GET",
              Rules.new_DispatchInfo NONE "get" None None None)).
Proof.
  exact (C1_route_of_unannotated_operation Examples.non_task_name "/rest"
           "com.example.Widget_store" "get" Examples.get_by_id_summary
           eq_refl eq_refl).
Defined.

Section VerbMatching.

Import Rules Spec.


Lemma total_app {A : Type} (score : A -> Z) (l1 l2 : list A) :
  total score (l1 ++ l2) = total score l1 + total score l2.
Proof. unfold total. induction l1 as [|x l1 IH]; simpl; lia. Qed.











End VerbMatching.



Section DefaultMatching.

Import Rules Spec.

Lemma http_method_map_verb_operation (http_method : string) (b : bool)
    (derived : string) :
  verb_operation http_method b = Some derived →
  ∃ base, http_method_map !! http_method = Some base
          ∧ (if (b && String.eqb base "list")%bool then "get" else base)
            = derived.
Proof.
  unfold verb_operation.
  destruct (String.eqb_spec http_method "GET") as [->|_].
  { intros [= <-]. exists "list". by destruct b. }
  destruct (String.eqb_spec http_method "PATCH") as [->|_].
  { intros [= <-]. exists "update". by destruct b. }
  destruct (String.eqb_spec http_method "DELETE") as [->|_].
  { intros [= <-]. exists "delete". by destruct b. }
  destruct (String.eqb_spec http_method "POST") as [->|_].
  { intros [= <-]. exists "create". by destruct b. }
  destruct (String.eqb_spec http_method "PUT") as [->|_].
  { intros [= <-]. exists "set". by destruct b. }
  destruct (String.eqb_spec http_method "HEAD") as [->|_]; [| done].
  intros [= <-]. exists "get". by destruct b.
Qed.

(** A verb outside the table makes the default matching raise. *)
Lemma _default_matching_unknown_verb (self : DispatchInfo)
    (http_method : string) (q u : gmap string string) :
  http_method_map !! http_method = None →
  _default_matching self http_method q u = Raise (KeyError http_method).
Proof. intros H. unfold _default_matching, getitem. by rewrite H. Qed.

(** C6, as the code has it.  For a descriptor without declared predicates
    the derived operation is a function of the request: GET stands for
    [list], or for [get] when the path carries parameters, PATCH for
    [update], DELETE for [delete], POST for [create], PUT for [set] and HEAD
    for [get]; a [~action] query parameter with a non-empty value replaces it
    by its value with [-] turned into [_].  The descriptor matches exactly
    when the derived operation is its own, and the arity is 1. *)
Theorem C6_default_matching_derived_operation (self : DispatchInfo)
    (request : Request) (query_params uri_params : gmap string string)
    (derived : string) :
  mapping_type self = NONE →
  verb_operation (method request) (bool_decide (uri_params ≠ ∅))
    = Some derived →
  get_operation_id self request query_params uri_params
  = Ok (if String.eqb (action_override query_params derived)
             (operation_id self)
        then Some (operation_id self) else None,
        1, NONE).
Proof.
  intros Hnone Hverb.
  destruct (http_method_map_verb_operation _ _ _ Hverb) as (base & Hbase & Hd).
  unfold get_operation_id. rewrite Hnone.
  unfold _default_matching, getitem. rewrite Hbase. simpl.
  rewrite Hd. unfold action_override.
  destruct (query_params !! "~action") as [a|]; [destruct (PyStr.truthy a) |];
    by destruct (String.eqb _ _).
Qed.

End DefaultMatching.

Lemma C6_default_matching_derived_operation_witness :
  Rules.get_operation_id (Rules.new_DispatchInfo NONE "power_off" None None None)
    {| method := "POST"; headers := environ_headers [] |}
    (<["~action" := "power-off"]> ∅) (<["vm" := "vm-12"]> ∅)
  = Ok (Some "power_off", 1, NONE).
Proof.
  exact (C6_default_matching_derived_operation
           (Rules.new_DispatchInfo NONE "power_off" None None None)
           {| method := "POST"; headers := environ_headers [] |}
           (<["~action" := "power-off"]> ∅) (<["vm" := "vm-12"]> ∅)
           "create" eq_refl eq_refl).
Defined.

(** C6 fails as stated: a [~action] parameter that is present with an empty
    value does not replace the operation derived from the verb. *)
Lemma C6_counterexample :
  let query_params : gmap string string := <["~action" := ""]> ∅ in
  let self := Rules.new_DispatchInfo NONE "list" None None None in
  query_params !! "~action" = Some ""
  ∧ PyStr.replace "-" "_" "" ≠ Rules.operation_id self
  ∧ Rules.get_operation_id self
      {| method := "GET"; headers := environ_headers [] |} query_params ∅
    = Ok (Some "list", 1, NONE).
Proof. split; [reflexivity | split; [discriminate | reflexivity]]. Qed.

Section Selection.

Import Rules Handler Spec.

Variable request : Request.
Variables uri_parameters query_string_flat_dict : gmap string string.

Abbreviation loop := (dispatch_loop request query_string_flat_dict uri_parameters).
Abbreviation within := (scores_within request query_string_flat_dict uri_parameters).

Lemma dispatch_loop_app (l1 l2 : list DispatchInfo) (op : option string)
    (arity : Z) (mt : RestAnnotationType) :
  loop (l1 ++ l2) op arity mt
  = '(op1, arity1, mt1) ← loop l1 op arity mt; loop l2 op1 arity1 mt1.
Proof.
  revert op arity mt.
  induction l1 as [|d l1 IH]; intros op arity mt; simpl; [done |].
  destruct (get_operation_id d request _ _) as [[[o a] t]|e]; simpl; [| done].
  destruct (_ && _)%bool; apply IH.
Qed.

(** Descriptors that score below the current arity leave the choice as it is. *)
Lemma dispatch_loop_below (l : list DispatchInfo) (op : option string)
    (arity : Z) (mt : RestAnnotationType) :
  Forall (within (fun a => a < arity)) l →
  loop l op arity mt = Ok (op, arity, mt).
Proof.
  induction 1 as [|d l (v & a & Hev & Hlt) _ IH]; simpl; [done |].
  rewrite Hev. simpl.
  destruct v; simpl; [| exact IH].
  rewrite ?bool_decide_eq_true_2 by eauto.
  specialize (Hlt eq_refl).
  replace (arity <=? a) with false by (symmetry; apply Z.leb_gt; lia).
  exact IH.
Qed.

(** Descriptors that score at most [bound] keep the arity at most [bound]. *)
Lemma dispatch_loop_bounded (bound : Z) (l : list DispatchInfo)
    (op : option string) (arity : Z) (mt : RestAnnotationType) :
  Forall (within (fun a => a ≤ bound)) l →
  arity ≤ bound →
  ∃ op1 arity1 mt1,
    loop l op arity mt = Ok (op1, arity1, mt1) ∧ arity1 ≤ bound.
Proof.
  intros Hall. revert op arity mt.
  induction Hall as [|d l (v & a & Hev & Hle) _ IH]; intros op arity mt Hb;
    simpl; [by eauto |].
  rewrite Hev. simpl.
  destruct v; simpl; [| by apply IH].
  rewrite ?bool_decide_eq_true_2 by eauto. simpl.
  destruct (arity <=? a); apply IH; auto.
Qed.

Lemma dispatch_loop_selects (pre post : list DispatchInfo) (d : DispatchInfo)
    (a : Z) :
  evaluates request query_string_flat_dict uri_parameters d true a →
  0 ≤ a →
  Forall (within (fun a' => a' ≤ a)) pre →
  Forall (within (fun a' => a' < a)) post →
  loop (pre ++ d :: post) None 0 NONE
  = Ok (Some (operation_id d), a, mapping_type d).
Proof.
  intros Hd Ha Hpre Hpost.
  rewrite dispatch_loop_app.
  destruct (dispatch_loop_bounded a pre None 0 NONE Hpre Ha)
    as (op1 & a1 & mt1 & -> & Hle).
  simpl. rewrite Hd. simpl.
  rewrite ?bool_decide_eq_true_2 by eauto.
  replace (a1 <=? a) with true by (symmetry; apply Z.leb_le; lia).
  simpl. by apply dispatch_loop_below.
Qed.

(** C2, as the code has it.  On a route with more than one descriptor, a
    descriptor that matches with an arity that is not negative is selected
    when no matching descriptor before it has a higher arity and every
    matching descriptor after it has a lower one: the highest arity wins, and
    among matching descriptors of equal arity the one registered last. *)
Theorem C2_highest_arity_latest_wins (pre post : list DispatchInfo)
    (d : DispatchInfo) (a : Z) :
  pre ++ post ≠ [] →
  evaluates request query_string_flat_dict uri_parameters d true a →
  0 ≤ a →
  Forall (within (fun a' => a' ≤ a)) pre →
  Forall (within (fun a' => a' < a)) post →
  select_operation request uri_parameters query_string_flat_dict
    (pre ++ d :: post)
  = Ok (operation_id d, mapping_type d).
Proof.
  intros Hmore Hd Ha Hpre Hpost.
  unfold select_operation.
  rewrite (dispatch_loop_selects pre post d a) by done. simpl.
  destruct pre as [|d1 pre]; [destruct post as [|d2 post]; [done |] |]; simpl.
  - done.
  - by destruct pre.
Qed.

(** When every matching descriptor has a negative arity, or none matches,
    the request is answered by [NotFound]. *)
Lemma select_operation_no_candidate (l : list DispatchInfo) :
  (1 < length l)%nat →
  Forall (within (fun a => a < 0)) l →
  ∃ msg, select_operation request uri_parameters query_string_flat_dict l
         = Raise (NotFound msg).
Proof.
  intros Hlen Hall. unfold select_operation.
  rewrite dispatch_loop_below by done. simpl.
  destruct l as [|d1 [|d2 l]]; simpl in Hlen; try lia.
  destruct (_ !! RestAnnotations.ACTION_PARAM); eauto.
Qed.

End Selection.

Lemma C2_highest_arity_latest_wins_witness :
  Handler.select_operation Examples.get_request ∅ Examples.query_x1
    [Examples.by_key_a; Examples.by_value; Examples.by_other_key]
  = Ok ("op_value", VERB).
Proof.
  apply (C2_highest_arity_latest_wins Examples.get_request ∅ Examples.query_x1
           [Examples.by_key_a] [Examples.by_other_key] Examples.by_value 7).
  - discriminate.
  - reflexivity.
  - lia.
  - constructor; [| constructor].
    exists true, 3. split; [reflexivity | lia].
  - constructor; [| constructor].
    exists true, (-1). split; [reflexivity | lia].
Defined.

(** C2 fails as stated: two descriptors match the request with the same
    arity, and the one registered last is selected, not the earlier one. *)
Lemma C2_counterexample :
  Rules.get_operation_id Examples.by_key_a Examples.get_request
    Examples.query_x1 ∅ = Ok (Some "op_a", 3, VERB)
  ∧ Rules.get_operation_id Examples.by_key_b Examples.get_request
      Examples.query_x1 ∅ = Ok (Some "op_b", 3, VERB)
  ∧ Handler.select_operation Examples.get_request ∅ Examples.query_x1
      [Examples.by_key_a; Examples.by_key_b] = Ok ("op_b", VERB).
Proof. repeat split. Qed.

Section MetadataCheck.

Import Rules Handler.

Variable get_task_operation_name : string -> string.

(** C4, as the code has it.  When the operation resolved for the request,
    after the choice among the descriptors and the task rewrite, is absent
    from the operations of the service of the route, the dispatcher raises
    [NotFound], the client-facing error of status 404. *)
Theorem C4_absent_operation_is_not_found (metadata : MetadataStore)
    (request : Request) (service_id : string)
    (uri_parameters query_string_flat_dict : gmap string string)
    (dispatch_info_list : list DispatchInfo)
    (selected resolved : string) (mapping_type : RestAnnotationType)
    (operations : gmap string OperationSummary) :
  select_operation request uri_parameters query_string_flat_dict
    dispatch_info_list = Ok (selected, mapping_type) →
  task_invocation get_task_operation_name query_string_flat_dict selected
    = Ok resolved →
  service_map metadata !! service_id = Some operations →
  operations !! resolved = None →
  _find_matching_operation get_task_operation_name metadata request
    service_id uri_parameters query_string_flat_dict dispatch_info_list
  = Raise (NotFound msg_no_method)
  ∧ http_code (NotFound msg_no_method) = Some 404.
Proof.
  intros Hsel Htask Hsvc Hop. split; [| done].
  unfold _find_matching_operation.
  rewrite Hsel. simpl. rewrite Htask. simpl.
  unfold getitem. rewrite Hsvc. simpl. rewrite Hop.
  rewrite bool_decide_eq_false_2; [done |]. by intros [? ?].
Qed.

End MetadataCheck.

Lemma C4_absent_operation_is_not_found_witness :
  Handler._find_matching_operation Examples.task_name
    Examples.widgets_metadata Examples.get_request "com.example.widgets"
    ∅ (<["vmw-task" := "true"]> ∅)
    [Rules.new_DispatchInfo NONE "list" None None None]
  = Raise (NotFound Handler.msg_no_method)
  ∧ http_code (NotFound Handler.msg_no_method) = Some 404.
Proof.
  apply (C4_absent_operation_is_not_found Examples.task_name
           Examples.widgets_metadata Examples.get_request
           "com.example.widgets" ∅ (<["vmw-task" := "true"]> ∅)
           [Rules.new_DispatchInfo NONE "list" None None None]
           "list" "list$task" NONE (<["list" := Examples.plain_summary]> ∅));
    reflexivity.
Defined.

(** C4 fails as stated: the operation [get] resolved for the request is not
    an operation of the service, and the error raised is the one of status
    404, not one of status 500. *)
Lemma C4_counterexample :
  let dispatch_info_list := [Rules.new_DispatchInfo NONE "get" None None None] in
  Handler.select_operation Examples.get_request (<["id" := "w-1"]> ∅) ∅
    dispatch_info_list = Ok ("get", NONE)
  ∧ (∃ operations,
       Handler.service_map Examples.widgets_metadata !! "com.example.widgets"
       = Some operations
       ∧ operations !! "get" = None)
  ∧ (∃ e, Handler._find_matching_operation Examples.task_name
            Examples.widgets_metadata Examples.get_request
            "com.example.widgets" (<["id" := "w-1"]> ∅) ∅ dispatch_info_list
          = Raise e
          ∧ http_code e = Some 404
          ∧ http_code e ≠ Some 500).
Proof.
  split; [reflexivity | split].
  - eexists. split; reflexivity.
  - eexists. split; [reflexivity | split; [reflexivity | discriminate]].
Qed.

Section SuccessStatus.

Import Rules Handler.

Variable vapi_to_http_error_map : gmap string Z.

(** C7, as the code has it.  When the provider invocation succeeds, the
    status is 204 for a DELETE request, whether or not the operation
    declares a success code; for any other request it is the declared
    success code of the operation when there is one, and 200 otherwise. *)
Theorem C7_success_status (metadata : MetadataStore) (request : Request)
    (service_id operation_id : string) (output : DataValue)
    (operations : gmap string OperationSummary)
    (operation_summary : OperationSummary) :
  service_map metadata !! service_id = Some operations →
  operations !! operation_id = Some operation_summary →
  ∃ status,
    _serialize_output_status vapi_to_http_error_map metadata request
      service_id operation_id (Success output) = Ok status
    ∧ (method request = "DELETE" → status = 204)
    ∧ (method request ≠ "DELETE" →
       ∀ code, success_response_code operation_summary = Some code →
               status = code)
    ∧ (method request ≠ "DELETE" →
       success_response_code operation_summary = None → status = 200).
Proof.
  intros Hsvc Hop.
  unfold _serialize_output_status, getitem. rewrite Hsvc. simpl.
  rewrite Hop. simpl.
  eexists. split; [reflexivity |].
  destruct (String.eqb_spec (method request) "DELETE") as [Heq|Hne].
  - split; [done | split; intros Hn; by destruct Hn].
  - split; [intros Heq; by destruct Hne | split].
    + by intros _ code ->.
    + by intros _ ->.
Qed.

End SuccessStatus.

Lemma C7_success_status_witness :
  ∃ status,
    Handler._serialize_output_status ∅ Examples.jobs_metadata
      Examples.post_request "com.example.jobs" "remove" (Success VoidValue)
    = Ok status
    ∧ (method Examples.post_request = "DELETE" → status = 204)
    ∧ (method Examples.post_request ≠ "DELETE" →
       ∀ code, success_response_code Examples.accepted_summary = Some code →
               status = code)
    ∧ (method Examples.post_request ≠ "DELETE" →
       success_response_code Examples.accepted_summary = None → status = 200).
Proof.
  apply (C7_success_status ∅ Examples.jobs_metadata Examples.post_request
           "com.example.jobs" "remove" VoidValue
           (<["remove" := Examples.accepted_summary]> ∅)
           Examples.accepted_summary);
    reflexivity.
Defined.

(** C7 fails as stated: for a DELETE request on an operation that declares
    the success code 202 the status is 204, not the declared code. *)
Lemma C7_counterexample :
  Handler.service_map Examples.jobs_metadata !! "com.example.jobs"
  = Some (<["remove" := Examples.accepted_summary]> ∅)
  ∧ success_response_code Examples.accepted_summary = Some 202
  ∧ method Examples.delete_request = "DELETE"
  ∧ Handler._serialize_output_status ∅ Examples.jobs_metadata
      Examples.delete_request "com.example.jobs" "remove" (Success VoidValue)
    = Ok 204.
Proof. repeat split. Qed.

Section Tasks.

Import TaskManager.

Variable LocalizableMessage : Type.
Variable convert_to_vapi : LocalizableMessage -> DataValue.

Abbreviation create_task' := (create_task LocalizableMessage convert_to_vapi).
Abbreviation build_task_info' :=
  (build_task_info LocalizableMessage convert_to_vapi).

Lemma TaskManagerImpl_eta (self : TaskManagerImpl) :
  {| task_map := task_map self;
     tasks_to_remove := tasks_to_remove self;
     tasks_to_cancel := tasks_to_cancel self |} = self.
Proof. by destruct self. Qed.

(** The sweep only deletes tasks, and leaves the cancellation marks alone. *)
Lemma remove_expired_loop_lookup (curr_time : Z) (l : list (string * Z))
    (self : TaskManagerImpl) (task_id : string) (s : TaskSummary) :
  task_map (remove_expired_loop curr_time l self) !! task_id = Some s →
  task_map self !! task_id = Some s.
Proof.
  revert self. induction l as [|[k t] l IH]; intros self; simpl; [done |].
  destruct (total_seconds_lt _ _); [done |].
  intros H. apply IH in H. simpl in H.
  by apply lookup_delete_Some in H as [_ H].
Qed.

Lemma remove_expired_loop_tasks_to_cancel (curr_time : Z)
    (l : list (string * Z)) (self : TaskManagerImpl) :
  tasks_to_cancel (remove_expired_loop curr_time l self) = tasks_to_cancel self.
Proof.
  revert self. induction l as [|[k t] l IH]; intros self; simpl; [done |].
  destruct (total_seconds_lt _ _); [done |]. by rewrite IH.
Qed.

(** A task none of whose iterated entries has expired survives the sweep. *)
Lemma remove_expired_loop_keeps (curr_time : Z) (l : list (string * Z))
    (self : TaskManagerImpl) (task_id : string) :
  (∀ t, (task_id, t) ∈ l →
        total_seconds_lt (curr_time - t) TASK_EXPIRE_DURATION_SEC = true) →
  task_map (remove_expired_loop curr_time l self) !! task_id
  = task_map self !! task_id.
Proof.
  revert self. induction l as [|[k t] l IH]; intros self Hl; simpl; [done |].
  destruct (total_seconds_lt _ _) eqn:Hlt; [done |].
  rewrite IH by (intros t' Ht'; apply Hl; by right). simpl.
  apply lookup_delete_ne. intros ->.
  rewrite Hl in Hlt by left. done.
Qed.



Lemma mark_for_cancellation_absent (task_id : string)
    (self : TaskManagerImpl) :
  task_map self !! task_id = None →
  mark_for_cancellation task_id self = (Raise (KeyError task_id), self).
Proof.
  intros Hs. unfold mark_for_cancellation, get_info, Rules.getitem.
  by rewrite Hs.
Qed.



(** C9, as the code has it.  When the identifier built from the base
    identifier and the service already names a task, [create_task] raises
    nothing, returns that identifier, discards the info it built and does
    nothing but the sweep of expired tasks: afterwards the identifier names
    the existing summary, unchanged, or no task at all when the sweep removed
    it, and it names the existing summary when none of its iterated removal
    entries has expired. *)
Theorem C9_create_task_existing_id (env : Env)
    (description : option LocalizableMessage)
    (service_id operation_id : string) (cancelable : bool)
    (error_types : list ReferenceType) (id_ : option string)
    (self : TaskManagerImpl) (existing : TaskSummary) :
  let task_id := _create_task_id (default (uuid4 env) id_) service_id in
  let after := _remove_expired_task env self in
  task_map self !! task_id = Some existing →
  create_task' env description service_id operation_id cancelable error_types
    id_ self = (task_id, after)
  ∧ (task_map after !! task_id = Some existing
     ∨ task_map after !! task_id = None)
  ∧ ((∀ t, (task_id, t) ∈ iteration env →
           total_seconds_lt (utcnow env - t) TASK_EXPIRE_DURATION_SEC = true) →
     task_map after !! task_id = Some existing).
Proof.
  intros task_id after Hex. split; [| split].
  - unfold create_task. fold task_id. unfold setdefault. rewrite Hex.
    by rewrite TaskManagerImpl_eta.
  - destruct (task_map after !! task_id) as [s|] eqn:Hs; [left | by right].
    apply remove_expired_loop_lookup in Hs. congruence.
  - intros Hfresh. subst after. unfold _remove_expired_task.
    by rewrite remove_expired_loop_keeps.
Qed.

(** C10, as the code has it.  For an identifier that names no task,
    [get_summary], [get_info], [set_info] and [mark_for_cancellation] raise
    [KeyError] and leave the manager as it is, [remove_task] returns and
    changes nothing, and [is_marked_for_cancellation] returns without an
    error, with the answer no when the identifier is not in the set of marked
    tasks. *)
Theorem C10_absent_task (env : Env) (task_id : string) (new_info : DataValue)
    (self : TaskManagerImpl) :
  task_map self !! task_id = None →
  get_summary task_id self = Raise (KeyError task_id)
  ∧ get_info task_id self = Raise (KeyError task_id)
  ∧ set_info env task_id new_info self = (Raise (KeyError task_id), self)
  ∧ mark_for_cancellation task_id self = (Raise (KeyError task_id), self)
  ∧ remove_task task_id self = self
  ∧ (task_id ∉ tasks_to_cancel self →
     is_marked_for_cancellation task_id self = false).
Proof.
  intros Habs. repeat split.
  - unfold get_summary, Rules.getitem. by rewrite Habs.
  - unfold get_info, Rules.getitem. by rewrite Habs.
  - unfold set_info. by rewrite Habs.
  - by apply mark_for_cancellation_absent.
  - unfold remove_task. rewrite delete_id by done.
    apply TaskManagerImpl_eta.
  - intros Hnot. by apply bool_decide_eq_false_2.
Qed.

(** Once the sweep reaches an expired entry, the task of the entry is gone. *)
Lemma remove_expired_loop_removes (curr_time : Z)
    (pre post : list (string * Z)) (task_id : string) (t : Z)
    (self : TaskManagerImpl) :
  Forall (fun e => total_seconds_lt (curr_time - e.2)
                     TASK_EXPIRE_DURATION_SEC = false) pre →
  total_seconds_lt (curr_time - t) TASK_EXPIRE_DURATION_SEC = false →
  task_map (remove_expired_loop curr_time (pre ++ (task_id, t) :: post) self)
    !! task_id = None.
Proof.
  intros Hpre Ht. revert self.
  induction Hpre as [|[k t'] pre Hk _ IH]; intros self; simpl.
  - rewrite Ht.
    match goal with |- ?m !! _ = None => destruct (m !! task_id) eqn:Hs end;
      [| done].
    apply remove_expired_loop_lookup in Hs. simpl in Hs.
    by rewrite lookup_delete_eq in Hs.
  - simpl in Hk. rewrite Hk. apply IH.
Qed.

End Tasks.


Lemma C9_create_task_existing_id_witness :
  let task_id := "a:com.example.jobs" in
  let env := Examples.at_time (Examples.hours 2) [(task_id, 0)] in
  let after := TaskManager._remove_expired_task env Examples.a_succeeded in
  Examples.create (Examples.hours 2) [(task_id, 0)] false "a"
    Examples.a_succeeded = (task_id, after)
  ∧ (TaskManager.task_map after !! task_id
     = Some {| TaskManager.info := Examples.info_with_status "SUCCEEDED" true;
               TaskManager.errors := [] |}
     ∨ TaskManager.task_map after !! task_id = None)
  ∧ ((∀ t, (task_id, t) ∈ TaskManager.iteration env →
           TaskManager.total_seconds_lt (TaskManager.utcnow env - t)
             TaskManager.TASK_EXPIRE_DURATION_SEC = true) →
     TaskManager.task_map after !! task_id
     = Some {| TaskManager.info := Examples.info_with_status "SUCCEEDED" true;
               TaskManager.errors := [] |}).
Proof.
  apply (C9_create_task_existing_id Examples.Message Examples.message_value
           (Examples.at_time (Examples.hours 2) [("a:com.example.jobs", 0)])
           None "com.example.jobs" "run$task" false [] (Some "a")
           Examples.a_succeeded).
  reflexivity.
Defined.

(** C9 fails as stated: the task [a] succeeded at time 0; a call of
    [create_task] with its identifier 25 hours later returns the identifier,
    and the existing summary is gone from the map. *)
Lemma C9_counterexample :
  let task_id := "a:com.example.jobs" in
  is_Some (TaskManager.task_map Examples.a_succeeded !! task_id)
  ∧ (Examples.create (Examples.hours 25) [(task_id, 0)] false "a"
       Examples.a_succeeded).1 = task_id
  ∧ TaskManager.task_map
      (Examples.create (Examples.hours 25) [(task_id, 0)] false "a"
         Examples.a_succeeded).2 !! task_id = None.
Proof. split; [by eexists | split; reflexivity]. Qed.

Lemma C10_absent_task_witness :
  let task_id := "a:com.example.jobs" in
  let self := TaskManager.new_TaskManagerImpl in
  let env := Examples.at_time 0 [] in
  TaskManager.get_summary task_id self = Raise (KeyError task_id)
  ∧ TaskManager.get_info task_id self = Raise (KeyError task_id)
  ∧ TaskManager.set_info env task_id
      (Examples.info_with_status "SUCCEEDED" true) self
    = (Raise (KeyError task_id), self)
  ∧ TaskManager.mark_for_cancellation task_id self
    = (Raise (KeyError task_id), self)
  ∧ TaskManager.remove_task task_id self = self
  ∧ (task_id ∉ TaskManager.tasks_to_cancel self →
     TaskManager.is_marked_for_cancellation task_id self = false).
Proof.
  apply (C10_absent_task (Examples.at_time 0 []) "a:com.example.jobs"
           (Examples.info_with_status "SUCCEEDED" true)
           TaskManager.new_TaskManagerImpl).
  reflexivity.
Defined.

(** C10 fails as stated: after the task [a] was marked and then removed, its
    identifier names no task and [is_marked_for_cancellation] answers yes. *)
Lemma C10_counterexample :
  let task_id := "a:com.example.jobs" in
  TaskManager.task_map Examples.a_marked_removed !! task_id = None
  ∧ TaskManager.is_marked_for_cancellation task_id Examples.a_marked_removed
    = true.
Proof. split; reflexivity. Qed.

(** C3, on the run where task [a] becomes terminal at time 0 and task [b]
    twelve hours later.  One minute before the 24 hours of [a] are over, a
    task creation leaves [a] among the infos.  One minute after, a task
    creation removes [a] when its sweep iterates the entry of [a] first, and
    leaves [a] in the task map when it iterates the entry of [b] first: the
    sweep stops at the first entry that has not expired. *)
Theorem C3_sweep_stops_at_unexpired_entry :
  let a := "a:com.example.jobs" in
  let b := "b:com.example.jobs" in
  let self := Examples.a_then_b_succeeded in
  let early := Examples.hours 24 - Examples.minutes 1 in
  let late := Examples.hours 24 + Examples.minutes 1 in
  let a_first := [(a, 0); (b, Examples.hours 12)] in
  let b_first := [(b, Examples.hours 12); (a, 0)] in
  TaskManager.tasks_to_remove self = list_to_set a_first
  ∧ TaskManager.tasks_to_remove self = list_to_set b_first
  ∧ is_Some (TaskManager.get_infos
               (Examples.create early a_first false "c" self).2 !! a)
  ∧ is_Some (TaskManager.get_infos
               (Examples.create early b_first false "c" self).2 !! a)
  ∧ TaskManager.task_map
      (Examples.create late a_first false "c" self).2 !! a = None
  ∧ is_Some (TaskManager.task_map
               (Examples.create late b_first false "c" self).2 !! a).
Proof.
  repeat split; try reflexivity; by eexists.
Qed.

(** * Further properties *)

Section TaskManagerMore.

Import TaskManager.

Variable LocalizableMessage : Type.
Variable convert_to_vapi : LocalizableMessage -> DataValue.

Lemma build_task_info_fields (env : Env)
    (description : option LocalizableMessage)
    (service_id operation_id : string) (cancelable : bool) :
  let i :=
    build_task_info LocalizableMessage convert_to_vapi env description
      service_id operation_id cancelable in
  get_field i "service" = Ok (StringValue service_id)
  ∧ get_field i "operation" = Ok (StringValue operation_id)
  ∧ get_field i "status" = Ok (StringValue PENDING)
  ∧ get_field i "cancelable" = Ok (BooleanValue cancelable).
Proof.
  unfold build_task_info.
  destruct description, (sec_user env), cancelable; repeat split.
Qed.

(** X1.  A task created under a free identifier, none of whose iterated removal
    entries has expired, is read back by [get_info] with the service, the
    operation and the cancelable flag of the call and the status PENDING. *)
Theorem create_task_get_info (env : Env)
    (description : option LocalizableMessage)
    (service_id operation_id : string) (cancelable : bool)
    (error_types : list ReferenceType) (id_ : option string)
    (self : TaskManagerImpl) :
  let task_id := _create_task_id (default (uuid4 env) id_) service_id in
  let '(returned, after) :=
    create_task LocalizableMessage convert_to_vapi env description service_id
      operation_id cancelable error_types id_ self in
  task_map self !! task_id = None →
  (∀ t, (task_id, t) ∈ iteration env →
        total_seconds_lt (utcnow env - t) TASK_EXPIRE_DURATION_SEC = true) →
  returned = task_id
  ∧ ∃ i, get_info task_id after = Ok i
         ∧ get_field i "service" = Ok (StringValue service_id)
         ∧ get_field i "operation" = Ok (StringValue operation_id)
         ∧ get_field i "status" = Ok (StringValue PENDING)
         ∧ get_field i "cancelable" = Ok (BooleanValue cancelable).
Proof.
  intros task_id. unfold create_task. fold task_id.
  intros Hfree Hfresh. split; [done |].
  eexists. split.
  - unfold get_info, Rules.getitem, _remove_expired_task.
    rewrite remove_expired_loop_keeps by done. simpl.
    unfold setdefault. rewrite Hfree, lookup_insert_eq. reflexivity.
  - apply build_task_info_fields.
Qed.

End TaskManagerMore.

Section TaskManagerSweep.

Import TaskManager SpecMore.

Lemma without_lookup (entries : list (string * Z))
    (m : gmap string TaskSummary) (task_id : string) :
  without entries m !! task_id
  = if bool_decide (task_id ∈ entries.*1) then None else m !! task_id.
Proof.
  unfold without. revert m.
  induction entries as [|[k t] entries IH]; intros m; simpl; [done |].
  rewrite IH. cbn [fst].
  change (((k, t) :: entries).*1) with (k :: entries.*1).
  case_bool_decide as H1; case_bool_decide as H2; try done.
  - exfalso. apply H2. by right.
  - apply elem_of_cons in H2 as [->|?]; [| done]. apply lookup_delete_eq.
  - apply lookup_delete_ne. intros ->. apply H2. by left.
Qed.

(** X2.  The sweep of [_remove_expired_task] gets through the entries it
    iterates up to the first one that has not expired: it removes the tasks
    and the entries of that prefix, and nothing else. *)
Theorem sweep_removes_expired_prefix (env : Env) (self : TaskManagerImpl) :
  let swept := expired_prefix (utcnow env) (iteration env) in
  let after := _remove_expired_task env self in
  task_map after = without swept (task_map self)
  ∧ tasks_to_remove after = tasks_to_remove self ∖ list_to_set swept
  ∧ tasks_to_cancel after = tasks_to_cancel self.
Proof.
  unfold _remove_expired_task.
  generalize (utcnow env) as now. generalize (iteration env) as entries.
  intros entries now. revert self.
  induction entries as [|[k t] entries IH]; intros self.
  - simpl. by rewrite difference_empty_L.
  - cbn [remove_expired_loop expired_prefix]. unfold expired. cbn [snd].
    destruct (total_seconds_lt _ _); cbn [negb].
    + simpl. by rewrite difference_empty_L.
    + destruct (IH {| task_map := delete k (task_map self);
                      tasks_to_remove := tasks_to_remove self ∖ {[(k, t)]};
                      tasks_to_cancel := tasks_to_cancel self |})
        as (Hm & Hr & Hc).
      cbn [task_map tasks_to_remove tasks_to_cancel] in Hm, Hr, Hc.
      rewrite Hm, Hr, Hc. fold (expired now).
      split; [done | split; [| done]].
      by rewrite difference_difference_l_L.
Qed.

Lemma expired_prefix_chronological (now : Z) (entries : list (string * Z))
    (entry : string * Z) :
  chronological entries →
  entry ∈ entries →
  expired now entry = true →
  entry ∈ expired_prefix now entries.
Proof.
  induction entries as [|e entries IH]; simpl; intros Hsorted Hin Hexp.
  - by apply elem_of_nil in Hin.
  - destruct Hsorted as [Hle Hsorted].
    assert (expired now e = true) as ->.
    { apply elem_of_cons in Hin as [<-|Hin]; [done |].
      rewrite Forall_forall in Hle. specialize (Hle _ Hin).
      unfold expired, total_seconds_lt in *.
      apply negb_true_iff, Z.ltb_ge. apply negb_true_iff, Z.ltb_ge in Hexp.
      lia. }
    apply elem_of_cons in Hin as [->|Hin]; [left | right; by apply IH].
Qed.

(** X3.  When the removal entries are iterated from the oldest to the youngest,
    the sweep removes every task that has an expired entry, and that entry
    with it. *)
Theorem sweep_chronological_removes_expired (env : Env)
    (self : TaskManagerImpl) (task_id : string) (t : Z) :
  chronological (iteration env) →
  (task_id, t) ∈ iteration env →
  expired (utcnow env) (task_id, t) = true →
  let after := _remove_expired_task env self in
  task_map after !! task_id = None
  ∧ (task_id, t) ∉ tasks_to_remove after.
Proof.
  intros Hsorted Hin Hexp after.
  destruct (sweep_removes_expired_prefix env self) as (Hm & Hr & _).
  pose proof (expired_prefix_chronological _ _ _ Hsorted Hin Hexp) as Hpre.
  subst after. rewrite Hm, Hr. split.
  - rewrite without_lookup. rewrite bool_decide_eq_true_2; [done |].
    apply list_elem_of_fmap. by exists (task_id, t).
  - apply not_elem_of_difference. right.
    by apply elem_of_list_to_set.
Qed.

(** X4.  A task none of whose iterated removal entries has expired is left in
    the task map by the sweep, with its summary, and stays among the infos
    of [get_infos]. *)
Theorem sweep_keeps_unexpired (env : Env) (self : TaskManagerImpl)
    (task_id : string) (summary : TaskSummary) :
  task_map self !! task_id = Some summary →
  (∀ t, (task_id, t) ∈ iteration env →
        total_seconds_lt (utcnow env - t) TASK_EXPIRE_DURATION_SEC = true) →
  task_map (_remove_expired_task env self) !! task_id = Some summary
  ∧ get_infos (_remove_expired_task env self) !! task_id = Some (info summary).
Proof.
  intros Hs Hfresh.
  assert (task_map (_remove_expired_task env self) !! task_id = Some summary)
    as H.
  { unfold _remove_expired_task. by rewrite remove_expired_loop_keeps. }
  split; [done |]. unfold get_infos. by rewrite lookup_fmap, H.
Qed.

End TaskManagerSweep.

Section TaskManagerCalls.

Import TaskManager SpecMore.

Variable LocalizableMessage : Type.
Variable convert_to_vapi : LocalizableMessage -> DataValue.

Lemma append_length (a b : string) :
  String.length (a +:+ b) = (String.length a + String.length b)%nat.
Proof.
  induction a as [|c a IH]; [done |].
  change (S (String.length (a +:+ b))
          = S (String.length a + String.length b)). by rewrite IH.
Qed.

Lemma append_inj_l (a b1 b2 : string) : a +:+ b1 = a +:+ b2 → b1 = b2.
Proof.
  induction a as [|c a IH]; [done |].
  change (String c (a +:+ b1) = String c (a +:+ b2) → b1 = b2).
  intros [= H]. by apply IH.
Qed.

Lemma append_inj_r (a1 a2 b : string) : a1 +:+ b = a2 +:+ b → a1 = a2.
Proof.
  revert a2. induction a1 as [|c a1 IH]; intros [|c2 a2] H.
  - done.
  - exfalso. apply (f_equal String.length) in H.
    change (String c2 a2 +:+ b) with (String c2 (a2 +:+ b)) in H.
    change ("" +:+ b) with b in H. simpl in H.
    rewrite append_length in H. lia.
  - exfalso. apply (f_equal String.length) in H.
    change (String c a1 +:+ b) with (String c (a1 +:+ b)) in H.
    change ("" +:+ b) with b in H. simpl in H.
    rewrite append_length in H. lia.
  - change (String c (a1 +:+ b) = String c2 (a2 +:+ b)) in H.
    injection H as -> H. f_equal. by apply IH.
Qed.

(** X5.  Task identifiers keep the two parts apart one at a time: for one base
    identifier they differ between services, and for one service they differ
    between base identifiers. *)
Theorem create_task_id_injective (base_id base_id' service_id service_id'
    : string) :
  (_create_task_id base_id service_id = _create_task_id base_id service_id' →
   service_id = service_id')
  ∧ (_create_task_id base_id service_id = _create_task_id base_id' service_id →
     base_id = base_id').
Proof.
  unfold _create_task_id. split; intros H.
  - by apply append_inj_l, append_inj_l in H.
  - by apply append_inj_r in H.
Qed.

(** X6.  [set_info] with a terminal status on an existing task replaces the
    info, keeps the error types, schedules the task for removal at the time
    of the call and clears its cancellation mark. *)
Theorem set_info_terminal (env : Env) (task_id : string)
    (new_info status : DataValue) (self : TaskManagerImpl)
    (summary : TaskSummary) :
  task_map self !! task_id = Some summary →
  get_field new_info "status" = Ok status →
  eq_StringValue status SUCCEEDED = true
  ∨ eq_StringValue status FAILED = true →
  let '(outcome, after) := set_info env task_id new_info self in
  outcome = Ok ()
  ∧ get_summary task_id after
    = Ok {| info := new_info; errors := errors summary |}
  ∧ (task_id, utcnow env) ∈ tasks_to_remove after
  ∧ is_marked_for_cancellation task_id after = false.
Proof.
  intros Hs Hstatus Hterm. unfold set_info. rewrite Hs, Hstatus.
  assert ((eq_StringValue status SUCCEEDED || eq_StringValue status FAILED)%bool
          = true) as ->.
  { apply orb_true_iff. tauto. }
  split; [done | split; [| split]].
  - unfold get_summary, Rules.getitem. simpl. by rewrite lookup_insert_eq.
  - simpl. apply elem_of_union. right. by apply elem_of_singleton.
  - unfold is_marked_for_cancellation. simpl.
    apply bool_decide_eq_false_2. intros Hin.
    apply elem_of_difference in Hin as [_ Hin]. apply Hin.
    by apply elem_of_singleton.
Qed.

(** X7.  [set_info] with a status that is not terminal only replaces the info:
    the removal entries, the cancellation marks and the other tasks stay as
    they are. *)
Theorem set_info_not_terminal (env : Env) (task_id : string)
    (new_info status : DataValue) (self : TaskManagerImpl)
    (summary : TaskSummary) :
  task_map self !! task_id = Some summary →
  get_field new_info "status" = Ok status →
  eq_StringValue status SUCCEEDED = false →
  eq_StringValue status FAILED = false →
  let '(outcome, after) := set_info env task_id new_info self in
  outcome = Ok ()
  ∧ get_info task_id after = Ok new_info
  ∧ tasks_to_remove after = tasks_to_remove self
  ∧ tasks_to_cancel after = tasks_to_cancel self
  ∧ ∀ other, other ≠ task_id →
             task_map after !! other = task_map self !! other.
Proof.
  intros Hs Hstatus Hsucc Hfail. unfold set_info.
  rewrite Hs, Hstatus, Hsucc, Hfail. simpl.
  split; [done | split; [| split; [done | split; [done |]]]].
  - unfold get_info, Rules.getitem. simpl. by rewrite lookup_insert_eq.
  - intros other Hne. by rewrite lookup_insert_ne.
Qed.

(** X8.  [set_info] with an info that has no status field raises
    [CoreException] after it has replaced the info of the task: the next
    [get_info] returns the new info. *)
Theorem set_info_without_status (env : Env) (task_id : string)
    (name : option string) (fields : list (string * DataValue))
    (self : TaskManagerImpl) (summary : TaskSummary) :
  task_map self !! task_id = Some summary →
  fields_get "status" fields = None →
  let '(outcome, after) :=
    set_info env task_id (StructValue name fields) self in
  outcome = Raise CoreException
  ∧ get_info task_id after = Ok (StructValue name fields)
  ∧ tasks_to_remove after = tasks_to_remove self
  ∧ tasks_to_cancel after = tasks_to_cancel self.
Proof.
  intros Hs Hnone. unfold set_info. rewrite Hs. simpl. rewrite Hnone.
  split; [done | split; [| done]].
  unfold get_info, Rules.getitem. simpl. by rewrite lookup_insert_eq.
Qed.

(** X9.  [mark_for_cancellation] on a task whose info carries
    [cancelable = True] marks it and touches nothing else, and marking it
    again changes nothing. *)
Theorem mark_for_cancellation_cancelable (task_id : string)
    (self : TaskManagerImpl) (summary : TaskSummary) (v : DataValue) :
  task_map self !! task_id = Some summary →
  get_field (info summary) "cancelable" = Ok v →
  eq_BooleanValue v true = true →
  let '(outcome, after) := mark_for_cancellation task_id self in
  outcome = Ok ()
  ∧ is_marked_for_cancellation task_id after = true
  ∧ task_map after = task_map self
  ∧ tasks_to_remove after = tasks_to_remove self
  ∧ mark_for_cancellation task_id after = (Ok (), after).
Proof.
  intros Hs Hv Ht.
  assert (Hmark : ∀ s, task_map s = task_map self →
            mark_for_cancellation task_id s
            = (Ok (), {| task_map := task_map s;
                         tasks_to_remove := tasks_to_remove s;
                         tasks_to_cancel := tasks_to_cancel s ∪ {[task_id]} |})).
  { intros s Hmap. unfold mark_for_cancellation, get_info, Rules.getitem.
    rewrite Hmap, Hs. simpl. by rewrite Hv, Ht. }
  rewrite (Hmark self eq_refl).
  split; [done | split; [| split; [done | split; [done |]]]].
  - unfold is_marked_for_cancellation. simpl. apply bool_decide_eq_true_2.
    apply elem_of_union. right. by apply elem_of_singleton.
  - rewrite Hmark by done. simpl. f_equal. f_equal.
    rewrite <- (assoc_L (∪)). by rewrite union_idemp_L.
Qed.

(** X10.  [create_task], [set_info] and [remove_task] never mark a task for
    cancellation: a task that is marked after one of them was marked
    before. *)
Theorem only_mark_for_cancellation_marks (env : Env)
    (description : option LocalizableMessage)
    (service_id operation_id : string) (cancelable : bool)
    (error_types : list ReferenceType) (id_ : option string)
    (task_id marked : string) (new_info : DataValue)
    (self : TaskManagerImpl) :
  is_marked_for_cancellation marked
    (create_task LocalizableMessage convert_to_vapi env description
       service_id operation_id cancelable error_types id_ self).2
  = is_marked_for_cancellation marked self
  ∧ (is_marked_for_cancellation marked
       (set_info env task_id new_info self).2 = true →
     is_marked_for_cancellation marked self = true)
  ∧ is_marked_for_cancellation marked (remove_task task_id self)
    = is_marked_for_cancellation marked self.
Proof.
  unfold is_marked_for_cancellation. split; [| split; [| done]].
  - unfold create_task, _remove_expired_task. simpl.
    by rewrite remove_expired_loop_tasks_to_cancel.
  - unfold set_info.
    destruct (task_map self !! task_id); [| done]. simpl.
    destruct (get_field new_info "status") as [status|]; [| done].
    destruct (_ || _)%bool; [| done]. simpl.
    intros H. apply bool_decide_eq_true_1 in H. apply bool_decide_eq_true_2.
    by apply elem_of_difference in H as [H _].
Qed.

(** X11.  A removal entry that outlives its task removes the next task of the
    same identifier: when the sweep of a [create_task] call reaches an expired
    entry of the identifier it creates, the call returns the identifier and
    the task map does not hold it. *)
Theorem create_task_swept_by_stale_entry (env : Env)
    (description : option LocalizableMessage)
    (service_id operation_id : string) (cancelable : bool)
    (error_types : list ReferenceType) (id_ : option string)
    (self : TaskManagerImpl) (pre post : list (string * Z)) (t : Z) :
  let task_id := _create_task_id (default (uuid4 env) id_) service_id in
  iteration env = pre ++ (task_id, t) :: post →
  Forall (fun e => expired (utcnow env) e = true) pre →
  expired (utcnow env) (task_id, t) = true →
  let '(returned, after) :=
    create_task LocalizableMessage convert_to_vapi env description service_id
      operation_id cancelable error_types id_ self in
  returned = task_id
  ∧ task_map after !! task_id = None
  ∧ get_info task_id after = Raise (KeyError task_id).
Proof.
  intros task_id Hiter Hpre Hexp. unfold create_task. fold task_id.
  assert (Hnone : ∀ s, task_map (_remove_expired_task env s) !! task_id = None).
  { intros s. unfold _remove_expired_task. rewrite Hiter.
    apply remove_expired_loop_removes.
    - eapply Forall_impl; [exact Hpre |]. intros e He.
      unfold expired in He. by apply negb_true_iff in He.
    - unfold expired in Hexp. by apply negb_true_iff in Hexp. }
  split; [done | split; [apply Hnone |]].
  unfold get_info, Rules.getitem. by rewrite Hnone.
Qed.

End TaskManagerCalls.

Section RouteGenerationMore.

Import Metamodel Rules Spec.

Variable get_non_task_operation_name : string -> string.

Abbreviation generate :=
  (generate_mapping_rule get_non_task_operation_name).

(** X12.  Every operation gets a rule: [generate_mapping_rule] raises or returns a
    route, and never returns [None], whatever the name and the annotations of
    the operation. *)
Theorem generate_mapping_rule_never_none
    (rest_prefix service_id operation_id : string)
    (operation_summary : OperationSummary) :
  (∃ e, generate (new_RoutingRuleGenerator rest_prefix) service_id
          operation_id operation_summary = Raise e)
  ∨ (∃ route, generate (new_RoutingRuleGenerator rest_prefix) service_id
                operation_id operation_summary = Ok (Some route)).
Proof.
  unfold generate_mapping_rule. simpl _mapping_rules.
  cbn [generate_mapping_rule_loop is_VerbMappingRule rule_match].
  rewrite !andb_false_r.
  assert (Hsome : ∀ r : result Route,
            (∃ e, Some <$> r = Raise e)
            ∨ (∃ route, Some <$> r = Ok (Some route)))
    by (intros [?|?]; [right | left]; by eexists).
  destruct (has_request_mapping_metadata _); [apply Hsome |].
  destruct (String.eqb service_id "com.vmware.cis.session" && true)%bool.
  all: try (destruct (has_verb_metadata _); [apply Hsome |]).
  all: destruct (String.eqb_spec operation_id "list"); [apply Hsome |].
  all: destruct (String.eqb_spec operation_id "create"); [apply Hsome |].
  all: destruct (String.eqb_spec operation_id "delete"); [apply Hsome |].
  all: destruct (String.eqb_spec operation_id "get"); [apply Hsome |].
  all: destruct (String.eqb_spec operation_id "update"); [apply Hsome |].
  all: destruct (String.eqb_spec operation_id "set"); [apply Hsome |].
  all: rewrite not_crud_op by done; apply Hsome.
Qed.

Lemma CustomRequestMappingRule_url_dispatch
    (rest_prefix service_id operation_id : string)
    (operation_summary : OperationSummary) (url http_method : string)
    (di : DispatchInfo) :
  CustomRequestMappingRule_url get_non_task_operation_name rest_prefix
    service_id operation_id operation_summary = Ok (url, http_method, di) →
  mapping_type di = REQUEST
  ∧ Rules.operation_id di = get_non_task_operation_name operation_id
  ∧ params di = [] ∧ dispatch_headers di = [].
Proof.
  unfold CustomRequestMappingRule_url, getitem, unpack2.
  intros H. repeat (case_match; simplify_eq/=).
  all: unfold mret, result_ret in *; by simplify_eq/=.
Qed.

Lemma VerbMappingRule_url_dispatch
    (rest_prefix service_id operation_id : string)
    (operation_summary : OperationSummary) (url http_method : string)
    (di : DispatchInfo) :
  VerbMappingRule_url get_non_task_operation_name rest_prefix
    service_id operation_id operation_summary = Ok (url, http_method, di) →
  mapping_type di = VERB
  ∧ Rules.operation_id di = get_non_task_operation_name operation_id
  ∧ action_value di = None.
Proof.
  unfold VerbMappingRule_url, getitem.
  intros H. repeat (case_match; simplify_eq/=).
  all: unfold mret, result_ret in *; by simplify_eq/=.
Qed.

(** X13.  The kind of the descriptor of a generated route follows the priority of
    the rules: fixed-action for an operation with a RequestMapping
    annotation, whatever its name; else predicate-based for an operation with
    a Verb annotation, except in the session service; else plain.  The
    descriptor always carries the non-task name of the operation. *)
Theorem generated_descriptor_kind
    (rest_prefix service_id operation_id : string)
    (operation_summary : OperationSummary) (url http_method : string)
    (di : DispatchInfo) :
  generate (new_RoutingRuleGenerator rest_prefix) service_id operation_id
    operation_summary = Ok (Some (url, http_method, di)) →
  Rules.operation_id di = get_non_task_operation_name operation_id
  ∧ mapping_type di
    = if has_request_mapping_metadata operation_summary then REQUEST
      else if (has_verb_metadata operation_summary
               && negb (String.eqb service_id "com.vmware.cis.session"))%bool
           then VERB
           else NONE.
Proof.
  unfold generate_mapping_rule. simpl _mapping_rules.
  cbn [generate_mapping_rule_loop is_VerbMappingRule rule_match].
  rewrite !andb_false_r.
  destruct (has_request_mapping_metadata _).
  { cbn [rule_url].
    destruct (CustomRequestMappingRule_url _ _ _ _ _) as [[[? ?] ?]|] eqn:Hc;
      [| done].
    intros [= -> -> ->].
    apply CustomRequestMappingRule_url_dispatch in Hc. tauto. }
  assert (Hplain : ∀ r : Route,
    r.2 = default_dispatch_info get_non_task_operation_name operation_id →
    Some <$> Ok r = Ok (Some (url, http_method, di)) →
    Rules.operation_id di = get_non_task_operation_name operation_id
    ∧ mapping_type di = NONE).
  { intros [[? ?] ?] Hr [= -> -> ->]. simpl in Hr. by subst. }
  assert (Hrest :
    (if String.eqb operation_id "list"
     then Some <$> rule_url get_non_task_operation_name ListMappingRule
                     (_rest_prefix (new_RoutingRuleGenerator rest_prefix))
                     service_id operation_id operation_summary
     else if String.eqb operation_id "create"
     then Some <$> rule_url get_non_task_operation_name PostMappingRule
                     (_rest_prefix (new_RoutingRuleGenerator rest_prefix))
                     service_id operation_id operation_summary
     else if String.eqb operation_id "delete"
     then Some <$> rule_url get_non_task_operation_name DeleteMappingRule
                     (_rest_prefix (new_RoutingRuleGenerator rest_prefix))
                     service_id operation_id operation_summary
     else if String.eqb operation_id "get"
     then Some <$> rule_url get_non_task_operation_name GetMappingRule
                     (_rest_prefix (new_RoutingRuleGenerator rest_prefix))
                     service_id operation_id operation_summary
     else if String.eqb operation_id "update"
     then Some <$> rule_url get_non_task_operation_name PatchMappingRule
                     (_rest_prefix (new_RoutingRuleGenerator rest_prefix))
                     service_id operation_id operation_summary
     else if String.eqb operation_id "set"
     then Some <$> rule_url get_non_task_operation_name PutMappingRule
                     (_rest_prefix (new_RoutingRuleGenerator rest_prefix))
                     service_id operation_id operation_summary
     else if negb (bool_decide (operation_id ∈ _crud_ops))
     then Some <$> rule_url get_non_task_operation_name PostActionMappingRule
                     (_rest_prefix (new_RoutingRuleGenerator rest_prefix))
                     service_id operation_id operation_summary
     else Ok None) = Ok (Some (url, http_method, di)) →
    Rules.operation_id di = get_non_task_operation_name operation_id
    ∧ mapping_type di = NONE).
  { cbn [rule_url].
    unfold ListMappingRule_url, PostMappingRule_url, DeleteMappingRule_url,
      GetMappingRule_url, PatchMappingRule_url, PutMappingRule_url,
      PostActionMappingRule_url.
    repeat case_match; try done; by apply Hplain. }
  destruct (String.eqb service_id "com.vmware.cis.session"); simpl.
  { rewrite andb_false_r. intros H. by apply Hrest. }
  destruct (has_verb_metadata _); simpl; [| apply Hrest].
  cbn [rule_url].
  destruct (VerbMappingRule_url _ _ _ _ _) as [[[? ?] ?]|] eqn:Hv; [| done].
  intros [= -> -> ->].
  apply VerbMappingRule_url_dispatch in Hv. tauto.
Qed.

Lemma endswith_char_append (c : ascii) (s : string) :
  PyStr.endswith_char c (s +:+ String c "") = true.
Proof.
  induction s as [|d s IH]; [apply Ascii.eqb_refl |].
  change (String d s +:+ String c "") with (String d (s +:+ String c "")).
  simpl. destruct (s +:+ String c "") eqn:Hs; [| exact IH].
  by destruct s.
Qed.

(** X14.  The prefix kept by the generator always ends with a slash: a prefix
    that has one is kept as it is, any other gets one appended, and doing it
    twice changes nothing more. *)
Theorem rest_prefix_normalised (rest_prefix : string) :
  let kept := _rest_prefix (new_RoutingRuleGenerator rest_prefix) in
  PyStr.endswith_char "/" kept = true
  ∧ (PyStr.endswith_char "/" rest_prefix = true → kept = rest_prefix)
  ∧ (PyStr.endswith_char "/" rest_prefix = false →
     kept = rest_prefix +:+ "/")
  ∧ _rest_prefix (new_RoutingRuleGenerator kept) = kept.
Proof.
  simpl. destruct (PyStr.endswith_char "/" rest_prefix) eqn:He.
  - rewrite He. by repeat split.
  - rewrite !endswith_char_append. by repeat split.
Qed.

End RouteGenerationMore.

Section BaseUrl.

Import Rules SpecUrl.

Lemma base_url_char (c : ascii) :
  url_char
    (PyStr.lower_char
       ((fun c => if Ascii.eqb c "." then "/"%char else c)
          ((fun c => if Ascii.eqb c "_" then "-"%char else c) c))) = true.
Proof. destruct c as [[] [] [] [] [] [] [] []]; reflexivity. Qed.

(** X15.  For a service identifier of ASCII characters, the base URL of the
    service is the prefix followed by as many characters as the identifier
    has, none of which is an underscore, a dot or an upper-case ASCII
    letter. *)
Theorem service_base_url_shape (rest_prefix service_id : string) :
  ascii_text service_id →
  ∃ suffix,
    _generate_service_base_url rest_prefix service_id = rest_prefix +:+ suffix
    ∧ String.length suffix = String.length service_id
    ∧ Forall (fun c => url_char c = true) (chars suffix).
Proof.
  intros _.
  unfold _generate_service_base_url. eexists. split; [reflexivity |].
  unfold PyStr.lower, PyStr.replace.
  induction service_id as [|c s [IHl IHc]]; simpl; [by split |].
  split; [by rewrite IHl |].
  constructor; [apply base_url_char | exact IHc].
Qed.

End BaseUrl.

Section SelectionMore.

Import Rules Handler Spec.

Variable request : Request.
Variables uri_parameters query_string_flat_dict : gmap string string.

Abbreviation evaluates' :=
  (evaluates request query_string_flat_dict uri_parameters).
Abbreviation within' :=
  (scores_within request query_string_flat_dict uri_parameters).
Abbreviation select :=
  (select_operation request uri_parameters query_string_flat_dict).

Lemma request_evaluates (d : DispatchInfo) (a : string) :
  mapping_type d = REQUEST →
  query_string_flat_dict !! RestAnnotations.ACTION_PARAM = Some a →
  a ≠ "" →
  evaluates' d (bool_decide (action_value d = Some a)) 1.
Proof.
  intros Hk Ha Hne. unfold evaluates, get_operation_id, _request_matching.
  rewrite Hk, Ha. by destruct a.
Qed.

Lemma default_evaluates (d : DispatchInfo) (derived : string) :
  mapping_type d = NONE →
  verb_operation (method request) (bool_decide (uri_parameters ≠ ∅))
    = Some derived →
  evaluates' d
    (String.eqb (action_override query_string_flat_dict derived)
       (operation_id d)) 1.
Proof.
  intros Hk Hverb.
  destruct (http_method_map_verb_operation _ _ _ Hverb) as (base & Hbase & Hd).
  unfold evaluates, get_operation_id. rewrite Hk.
  unfold _default_matching, getitem. rewrite Hbase. simpl.
  rewrite Hd. unfold action_override.
  destruct (query_string_flat_dict !! "~action") as [a|];
    [destruct (PyStr.truthy a) |]; by destruct (String.eqb _ _).
Qed.

(** X16.  On a route of several fixed-action descriptors, a request with a
    non-empty [action] parameter is dispatched to the last descriptor
    declared with that action value. *)
Theorem fixed_action_selects_declared (pre post : list DispatchInfo)
    (d : DispatchInfo) (a : string) :
  pre ++ post ≠ [] →
  Forall (fun d' => mapping_type d' = REQUEST) (pre ++ d :: post) →
  query_string_flat_dict !! RestAnnotations.ACTION_PARAM = Some a →
  a ≠ "" →
  action_value d = Some a →
  Forall (fun d' => action_value d' ≠ Some a) post →
  select (pre ++ d :: post) = Ok (operation_id d, REQUEST).
Proof.
  intros Hmore Hkind Ha Hne Hd Hpost.
  apply Forall_app in Hkind as [Hkpre Hkind].
  apply Forall_cons in Hkind as [Hkd Hkpost].
  assert (select (pre ++ d :: post) = Ok (operation_id d, mapping_type d))
    as Hsel; [| by rewrite Hkd in Hsel].
  unfold select_operation.
  rewrite (dispatch_loop_selects request uri_parameters
             query_string_flat_dict pre post d 1).
  - simpl. destruct pre as [|? pre]; [destruct post; [done |] |]; simpl;
      [done | by destruct pre].
  - pose proof (request_evaluates d a Hkd Ha Hne) as He.
    by rewrite bool_decide_eq_true_2 in He.
  - lia.
  - eapply Forall_impl; [exact Hkpre |]. intros d' Hk'.
    eexists _, 1. split; [by apply (request_evaluates d' a) | lia].
  - rewrite Forall_forall in Hkpost, Hpost. apply Forall_forall.
    intros d' Hin. eexists _, 1.
    split; [apply (request_evaluates d' a); [by apply Hkpost | done | done] |].
    intros Ht. apply bool_decide_eq_true_1 in Ht. by apply Hpost in Ht.
Qed.

(** X17.  On a route of several fixed-action descriptors, a request whose
    non-empty [action] parameter is the action value of none of them is
    answered by [NotFound], with the message that names the action. *)
Theorem fixed_action_unknown_is_not_found (l : list DispatchInfo)
    (a : string) :
  (1 < length l)%nat →
  Forall (fun d => mapping_type d = REQUEST) l →
  query_string_flat_dict !! RestAnnotations.ACTION_PARAM = Some a →
  a ≠ "" →
  Forall (fun d => action_value d ≠ Some a) l →
  select l = Raise (NotFound (msg_no_method_for_action a)).
Proof.
  intros Hlen Hkind Ha Hne Hnone. unfold select_operation.
  rewrite dispatch_loop_below.
  - simpl. rewrite Ha. by destruct l as [|? [|? ?]]; simpl in *; try lia.
  - rewrite Forall_forall in Hkind, Hnone. apply Forall_forall.
    intros d Hin. eexists _, 1.
    split; [apply (request_evaluates d a); [by apply Hkind | done | done] |].
    intros Ht. apply bool_decide_eq_true_1 in Ht. by apply Hnone in Ht.
Qed.

(** X18.  On a route of several plain descriptors, the request is dispatched by
    the operation derived from its verb, its path parameters and its
    [~action] parameter: to the last descriptor of that operation. *)
Theorem default_selects_derived (pre post : list DispatchInfo)
    (d : DispatchInfo) (derived : string) :
  pre ++ post ≠ [] →
  Forall (fun d' => mapping_type d' = NONE) (pre ++ d :: post) →
  verb_operation (method request) (bool_decide (uri_parameters ≠ ∅))
    = Some derived →
  operation_id d = action_override query_string_flat_dict derived →
  Forall (fun d' => operation_id d'
                    ≠ action_override query_string_flat_dict derived) post →
  select (pre ++ d :: post) = Ok (operation_id d, NONE).
Proof.
  intros Hmore Hkind Hverb Hd Hpost.
  apply Forall_app in Hkind as [Hkpre Hkind].
  apply Forall_cons in Hkind as [Hkd Hkpost].
  assert (select (pre ++ d :: post) = Ok (operation_id d, mapping_type d))
    as Hsel; [| by rewrite Hkd in Hsel].
  unfold select_operation.
  rewrite (dispatch_loop_selects request uri_parameters
             query_string_flat_dict pre post d 1).
  - simpl. destruct pre as [|? pre]; [destruct post; [done |] |]; simpl;
      [done | by destruct pre].
  - pose proof (default_evaluates d derived Hkd Hverb) as He.
    by rewrite Hd, String.eqb_refl in He.
  - lia.
  - eapply Forall_impl; [exact Hkpre |]. intros d' Hk'.
    eexists _, 1. split; [by apply (default_evaluates d' derived) | lia].
  - rewrite Forall_forall in Hkpost, Hpost. apply Forall_forall.
    intros d' Hin. eexists _, 1.
    split; [apply (default_evaluates d' derived); [by apply Hkpost | done] |].
    intros Ht. apply String.eqb_eq in Ht. symmetry in Ht.
    by apply Hpost in Ht.
Qed.

(** X19.  A route with a single descriptor that is not predicate-based is
    dispatched to it without a look at the request, also for a verb outside
    the table of verbs; on a route of several descriptors that starts with a
    plain one, such a verb makes the dispatch raise [KeyError]. *)
Theorem unknown_verb_fast_path_and_scoring (d : DispatchInfo)
    (rest : list DispatchInfo) :
  http_method_map !! method request = None →
  (mapping_type d ≠ VERB → select [d] = Ok (operation_id d, mapping_type d))
  ∧ (mapping_type d = NONE → rest ≠ [] →
     select (d :: rest) = Raise (KeyError (method request))).
Proof.
  intros Hverb. split.
  - intros Hk. unfold select_operation. by rewrite bool_decide_eq_true_2.
  - intros Hk Hrest. unfold select_operation. simpl.
    unfold get_operation_id. rewrite Hk.
    rewrite _default_matching_unknown_verb by done. simpl.
    by destruct rest.
Qed.

End SelectionMore.

Section FindMatchingOperationMore.

Import Rules Handler.

Variable get_task_operation_name : string -> string.
Variable vapi_to_http_error_map : gmap string Z.

Abbreviation find :=
  (_find_matching_operation get_task_operation_name).

(** X20.  An operation returned by [_find_matching_operation] is an operation of
    the service in the metadata store, so the lookup of its summary when the
    output is serialized does not fail. *)
Theorem found_operation_is_known (metadata : MetadataStore)
    (request : Request) (service_id : string)
    (uri_parameters query_string_flat_dict : gmap string string)
    (dispatch_info_list : list DispatchInfo) (found : string)
    (mapping_type : RestAnnotationType) :
  find metadata request service_id uri_parameters query_string_flat_dict
    dispatch_info_list = Ok (found, mapping_type) →
  (∃ operations summary,
     service_map metadata !! service_id = Some operations
     ∧ operations !! found = Some summary)
  ∧ ∀ method_result, ∃ status,
      _serialize_output_status vapi_to_http_error_map metadata request
        service_id found method_result = Ok status.
Proof.
  unfold _find_matching_operation. intros H.
  destruct (select_operation _ _ _ _) as [[selected mt]|]; [| done].
  simpl in H.
  destruct (task_invocation _ _ _) as [resolved|]; [| done]. simpl in H.
  unfold getitem in H.
  destruct (service_map metadata !! service_id) as [operations|] eqn:Hsvc;
    [| done].
  simpl in H. case_bool_decide as Hop; [| done].
  injection H as <- <-. destruct Hop as [summary Hop].
  split; [by eauto |].
  intros method_result. unfold _serialize_output_status, getitem.
  rewrite Hsvc. simpl. rewrite Hop. simpl.
  destruct method_result as [?|error_name ?]; [by eauto |].
  destruct (all_errors_response_code_map metadata !! error_name); by eauto.
Qed.

(** X21.  Once an operation is selected, the [vmw-task] query parameter decides:
    a value other than [true], in any case of the letters, makes the request
    a [BadRequest] of status 400, whatever the metadata store holds; the
    value [true] replaces the operation by its task variant. *)
Theorem task_parameter_decides (metadata : MetadataStore)
    (request : Request) (service_id : string)
    (uri_parameters query_string_flat_dict : gmap string string)
    (dispatch_info_list : list DispatchInfo) (selected value : string)
    (mapping_type : RestAnnotationType) :
  select_operation request uri_parameters query_string_flat_dict
    dispatch_info_list = Ok (selected, mapping_type) →
  query_string_flat_dict !! TASK_REST_QUERY_PARAM = Some value →
  (PyStr.lower value ≠ "true" →
   find metadata request service_id uri_parameters query_string_flat_dict
     dispatch_info_list = Raise (BadRequest msg_invalid_task_param)
   ∧ http_code (BadRequest msg_invalid_task_param) = Some 400)
  ∧ (PyStr.lower value = "true" →
     ∀ operations summary,
       service_map metadata !! service_id = Some operations →
       operations !! get_task_operation_name selected = Some summary →
       find metadata request service_id uri_parameters
         query_string_flat_dict dispatch_info_list
       = Ok (get_task_operation_name selected, mapping_type)).
Proof.
  intros Hsel Hval. unfold _find_matching_operation, task_invocation.
  rewrite Hsel. simpl. rewrite Hval. split.
  - intros Hne. apply String.eqb_neq in Hne. by rewrite Hne.
  - intros Heq operations summary Hsvc Hop.
    apply String.eqb_eq in Heq. rewrite Heq. simpl.
    unfold getitem. rewrite Hsvc. simpl. rewrite Hop.
    by rewrite bool_decide_eq_true_2 by eauto.
Qed.

(** X22.  When the provider invocation fails, the status is the response code
    declared for the error, else the code of the error in the table of
    standard errors, else 500; neither the verb of the request nor the
    success code of the operation takes part. *)
Theorem failure_status (metadata : MetadataStore) (request : Request)
    (service_id operation_id error_name : string) (error : DataValue)
    (operations : gmap string OperationSummary)
    (operation_summary : OperationSummary) :
  service_map metadata !! service_id = Some operations →
  operations !! operation_id = Some operation_summary →
  ∃ status,
    _serialize_output_status vapi_to_http_error_map metadata request
      service_id operation_id (Failure error_name error) = Ok status
    ∧ (∀ code, all_errors_response_code_map metadata !! error_name
               = Some code → status = code)
    ∧ (all_errors_response_code_map metadata !! error_name = None →
       ∀ code, vapi_to_http_error_map !! error_name = Some code →
               status = code)
    ∧ (all_errors_response_code_map metadata !! error_name = None →
       vapi_to_http_error_map !! error_name = None → status = 500).
Proof.
  intros Hsvc Hop. unfold _serialize_output_status, getitem.
  rewrite Hsvc. simpl. rewrite Hop. simpl.
  destruct (all_errors_response_code_map metadata !! error_name) as [c|].
  - exists c. split; [done |]. repeat split; intros; congruence.
  - eexists. split; [reflexivity |].
    repeat split; try congruence.
    + intros _ code ->. done.
    + intros _ ->. done.
Qed.

End FindMatchingOperationMore.

Section InputDataProperties.

Import InputData SpecInput.

Lemma dict_get_set_eq (key : string) (value : PyVal)
    (d : list (string * PyVal)) :
  dict_get key (dict_set key value d) = Some value.
Proof.
  induction d as [|[k v] d IH]; simpl; [by rewrite String.eqb_refl |].
  destruct (String.eqb k key) eqn:He; simpl.
  - by rewrite String.eqb_refl.
  - by rewrite He.
Qed.

Lemma dict_get_set_ne (key other : string) (value : PyVal)
    (d : list (string * PyVal)) :
  other ≠ key →
  dict_get other (dict_set key value d) = dict_get other d.
Proof.
  intros Hne. induction d as [|[k v] d IH]; simpl.
  - apply String.eqb_neq in Hne. by rewrite String.eqb_sym, Hne.
  - destruct (String.eqb_spec k key) as [->|Hk]; simpl.
    + destruct (String.eqb_spec key other); [congruence | done].
    + destruct (String.eqb k other); [done | exact IH].
Qed.

Lemma dict_get_None (key : string) (d : list (string * PyVal)) :
  key ∉ d.*1 → dict_get key d = None.
Proof.
  induction d as [|[k v] d IH]; simpl; [done |].
  intros Hnot. apply not_elem_of_cons in Hnot as [Hne Hnot].
  apply String.eqb_neq in Hne. rewrite String.eqb_sym, Hne. by apply IH.
Qed.

Lemma dict_set_fresh (key : string) (value : PyVal)
    (d : list (string * PyVal)) :
  key ∉ d.*1 → dict_set key value d = d ++ [(key, value)].
Proof.
  induction d as [|[k v] d IH]; simpl; [done |].
  intros Hnot. apply not_elem_of_cons in Hnot as [Hne Hnot].
  apply String.eqb_neq in Hne. rewrite String.eqb_sym, Hne.
  by rewrite IH.
Qed.

Lemma _input_data_update_nil (input_data : list (string * PyVal)) :
  _input_data_update input_data [] = input_data.
Proof. done. Qed.

Lemma _input_data_update_cons (input_data rest : list (string * PyVal))
    (key : string) (value : PyVal) :
  _input_data_update input_data ((key, value) :: rest)
  = _input_data_update
      (dict_set key
         (updated _input_data_update (dict_get key input_data) value)
         input_data) rest.
Proof.
  unfold _input_data_update, updated. simpl.
  destruct (dict_get key input_data) as [[]|]; try done.
  by destruct value.
Qed.

(** X23.  After [_input_data_update], a key that the update does not have holds
    what it held in the input; a key that the update has holds its value
    from the update, except that two dictionaries under one key are merged
    in the same way. *)
Theorem input_data_update_lookup (input_data update_data
    : list (string * PyVal)) (key : string) :
  NoDup update_data.*1 →
  dict_get key (_input_data_update input_data update_data)
  = match dict_get key update_data with
    | Some value =>
        Some (updated _input_data_update (dict_get key input_data) value)
    | None => dict_get key input_data
    end.
Proof.
  intros Hnodup. revert input_data.
  induction update_data as [|[k v] rest IH]; intros input_data; [done |].
  rewrite _input_data_update_cons.
  apply NoDup_cons in Hnodup as [Hk Hnodup].
  rewrite IH by done. cbn [dict_get].
  destruct (String.eqb_spec k key) as [->|Hne].
  - rewrite (dict_get_None key rest) by done. apply dict_get_set_eq.
  - rewrite dict_get_set_ne by done. done.
Qed.

(** X24.  An update whose keys are new to the input appends its items to the
    input, in their order; on an empty input the result is the update. *)
Theorem input_data_update_disjoint (input_data update_data
    : list (string * PyVal)) :
  NoDup update_data.*1 →
  (∀ key, key ∈ update_data.*1 → key ∉ input_data.*1) →
  _input_data_update input_data update_data = input_data ++ update_data.
Proof.
  intros Hnodup. revert input_data.
  induction update_data as [|[k v] rest IH]; intros input_data Hdisj.
  - by rewrite app_nil_r.
  - rewrite _input_data_update_cons.
    apply NoDup_cons in Hnodup as [Hk Hnodup].
    assert (k ∉ input_data.*1) as Hfresh by (apply Hdisj; left).
    rewrite (dict_get_None k input_data) by done. cbn [updated].
    rewrite dict_set_fresh by done.
    rewrite IH; [by rewrite <- app_assoc | done |].
    intros key Hin. rewrite fmap_app. intros Hin'.
    apply elem_of_app in Hin' as [Hin'|Hin'].
    + revert Hin'. apply Hdisj. by right.
    + apply list_elem_of_singleton in Hin'. simpl in Hin'. by subst.
Qed.

Lemma _change_parameter_structure_cons (output : list (string * PyVal))
    (name next : string) (names : list string) (value : PyVal) :
  _change_parameter_structure output (name :: next :: names) value
  = changed ←
      _change_parameter_structure
        (match dict_get name output with
         | Some (PyDict d) => d
         | _ => []
         end) (next :: names) value;
    Some (dict_set name (PyDict changed) output).
Proof. done. Qed.

Lemma path_get_cons (name next : string) (names : list string)
    (d : list (string * PyVal)) :
  path_get (name :: next :: names) d
  = match dict_get name d with
    | Some (PyDict sub) => path_get (next :: names) sub
    | _ => None
    end.
Proof. done. Qed.

(** X25.  [_change_parameter_structure] on a path of names that is not empty
    returns a dictionary that holds the value at the end of the path; on an
    empty path it fails. *)
Theorem change_parameter_structure_path (output : list (string * PyVal))
    (names : list string) (value : PyVal) :
  (names = [] → _change_parameter_structure output names value = None)
  ∧ (names ≠ [] →
     ∃ changed,
       _change_parameter_structure output names value = Some changed
       ∧ path_get names changed = Some value).
Proof.
  split; [by intros -> |].
  revert output. induction names as [|name [|next names] IH];
    intros output Hne; [done | |].
  - eexists. split; [reflexivity |]. simpl. apply dict_get_set_eq.
  - rewrite _change_parameter_structure_cons.
    destruct (IH (match dict_get name output with
                  | Some (PyDict d) => d
                  | _ => []
                  end)) as (sub & -> & Hsub); [done |].
    eexists. split; [reflexivity |].
    by rewrite path_get_cons, dict_get_set_eq.
Qed.

(** X26.  [_change_parameter_structure] leaves every path that parts from the
    given one as it was: the parameters set before stay. *)
Theorem change_parameter_structure_other_paths
    (output changed : list (string * PyVal)) (names other : list string)
    (value : PyVal) :
  _change_parameter_structure output names value = Some changed →
  diverge names other →
  path_get other changed = path_get other output.
Proof.
  revert output changed other.
  induction names as [|name [|next names] IH];
    intros output changed other Hch Hdiv; [done | |].
  - destruct other as [|b other]; [done |]. simpl in Hdiv, Hch.
    injection Hch as <-.
    destruct Hdiv as [Hne|[_ []]].
    cbn [path_get]. rewrite dict_get_set_ne by done. done.
  - rewrite _change_parameter_structure_cons in Hch.
    destruct (_change_parameter_structure _ (next :: names) value)
      as [sub|] eqn:Hsub; [| done].
    injection Hch as <-.
    destruct other as [|b other]; [done |].
    change (name ≠ b ∨ name = b ∧ diverge (next :: names) other) in Hdiv.
    destruct Hdiv as [Hne|[<- Hdiv]].
    + cbn [path_get]. rewrite dict_get_set_ne by done. done.
    + destruct other as [|c other]; [done |].
      rewrite !path_get_cons, dict_get_set_eq.
      rewrite (IH _ _ _ Hsub Hdiv).
      destruct (dict_get name output) as [[]|]; try done.
      all: by destruct other.
Qed.

End InputDataProperties.

Section RoutingTable.

Import Rules RoutingRules SpecRoutes.

Variable get_non_task_operation_name : string -> string.

Lemma rest_rules_operations_generated (self : RoutingRuleGenerator)
    (service_id : string) (service_info : list (string * OperationSummary))
    (rules_dict : list (RuleKey * list DispatchInfo)) :
  rest_rules_operations get_non_task_operation_name self service_id
    service_info rules_dict
  = match generated_for_service get_non_task_operation_name self service_id
            service_info with
    | Ok routes => Ok (append_all routes rules_dict)
    | Raise e => Raise e
    end.
Proof.
  revert rules_dict.
  induction service_info as [|[op s] rest IH]; intros rules_dict; [done |].
  simpl.
  destruct (generate_mapping_rule _ _ _ _ _) as [[[[url m] di]|]|e];
    simpl; [| done | done].
  rewrite IH.
  by destruct (generated_for_service _ _ _ rest).
Qed.

Lemma append_all_app (r1 r2 : list (RuleKey * DispatchInfo))
    (rules_dict : list (RuleKey * list DispatchInfo)) :
  append_all (r1 ++ r2) rules_dict = append_all r2 (append_all r1 rules_dict).
Proof. unfold append_all. by rewrite foldl_app. Qed.

Lemma rest_rules_services_generated (self : RoutingRuleGenerator)
    (service_map : list (string * list (string * OperationSummary)))
    (rules_dict : list (RuleKey * list DispatchInfo)) :
  rest_rules_services get_non_task_operation_name self service_map rules_dict
  = match generated get_non_task_operation_name self service_map with
    | Ok routes => Ok (append_all routes rules_dict)
    | Raise e => Raise e
    end.
Proof.
  revert rules_dict.
  induction service_map as [|[svc ops] rest IH]; intros rules_dict; [done |].
  simpl. rewrite rest_rules_operations_generated.
  destruct (generated_for_service _ _ _ ops) as [first|e]; simpl; [| done].
  rewrite IH.
  destruct (generated _ _ rest) as [others|e]; [| done].
  by rewrite append_all_app.
Qed.

Lemma rules_dict_append_keys (key : RuleKey) (di : DispatchInfo)
    (d : list (RuleKey * list DispatchInfo)) :
  (rules_dict_append key di d).*1
  = if bool_decide (key ∈ d.*1) then d.*1 else d.*1 ++ [key].
Proof.
  induction d as [|[k l] d IH].
  - simpl. first [done | case_bool_decide as H; [by apply elem_of_nil in H | done]].
  - change (((k, l) :: d).*1) with (k :: d.*1).
    cbn [rules_dict_append].
    destruct (decide (k = key)) as [->|Hne].
    + rewrite (bool_decide_eq_true_2 (key = key)) by done.
      by rewrite bool_decide_eq_true_2 by left.
    + rewrite (bool_decide_eq_false_2 (k = key)) by done.
      change (((k, l) :: rules_dict_append key di d).*1)
        with (k :: (rules_dict_append key di d).*1).
      rewrite IH.
      destruct (decide (key ∈ d.*1)) as [Hin|Hin].
      * rewrite (bool_decide_eq_true_2 (key ∈ d.*1)) by done.
        by rewrite bool_decide_eq_true_2 by (by right).
      * rewrite (bool_decide_eq_false_2 (key ∈ d.*1)) by done.
        rewrite bool_decide_eq_false_2; [done |].
        intros Hin'. apply elem_of_cons in Hin' as [?|?]; [by subst | done].
Qed.

Lemma rules_dict_append_NoDup (key : RuleKey) (di : DispatchInfo)
    (d : list (RuleKey * list DispatchInfo)) :
  NoDup d.*1 → NoDup (rules_dict_append key di d).*1.
Proof.
  intros Hd. rewrite rules_dict_append_keys.
  case_bool_decide as Hin; [done |].
  apply NoDup_app. split; [done | split].
  - intros k Hk Hk'. apply list_elem_of_singleton in Hk'. by subst.
  - apply NoDup_singleton.
Qed.

Lemma rules_dict_append_elem_of (key : RuleKey) (di : DispatchInfo)
    (d : list (RuleKey * list DispatchInfo)) (k : RuleKey)
    (l : list DispatchInfo) :
  NoDup d.*1 →
  (k, l) ∈ rules_dict_append key di d
  ↔ (k ≠ key ∧ (k, l) ∈ d)
    ∨ (k = key ∧ ((∃ l0, (key, l0) ∈ d ∧ l = l0 ++ [di])
                  ∨ ((key ∉ d.*1) ∧ l = [di]))).
Proof.
  induction d as [|[k0 l0] d IH]; intros Hd.
  - cbn [rules_dict_append]. rewrite list_elem_of_singleton. split.
    + intros H. injection H as -> ->. right. split; [done |]. right.
      split; [apply not_elem_of_nil | done].
    + intros [[_ H]|[-> [(l1 & H & _)|[_ ->]]]].
      * by apply elem_of_nil in H.
      * by apply elem_of_nil in H.
      * done.
  - change (((k0, l0) :: d).*1) with (k0 :: d.*1) in *.
    apply NoDup_cons in Hd as [Hk0 Hd]. specialize (IH Hd).
    assert (Hfresh : ∀ l', (k0, l') ∉ d).
    { intros l' Hin. apply Hk0. apply list_elem_of_fmap.
      by exists (k0, l'). }
    cbn [rules_dict_append].
    destruct (decide (k0 = key)) as [->|Hne].
    + rewrite (bool_decide_eq_true_2 (key = key)) by done.
      rewrite !elem_of_cons. split.
      * intros [H|Hin].
        -- injection H as -> ->. right. split; [done |]. left.
           exists l0. split; [| done]. by left.
        -- left. split; [| by right]. intros ->. by apply Hfresh in Hin.
      * intros [[Hk [H|Hin]]|[-> [(l1 & Hin & ->)|[Hnot _]]]].
        -- by injection H as -> _.
        -- by right.
        -- apply elem_of_cons in Hin as [H|Hin].
           ++ injection H as ->. by left.
           ++ by apply Hfresh in Hin.
        -- exfalso. apply Hnot. by left.
    + rewrite (bool_decide_eq_false_2 (k0 = key)) by done.
      rewrite !elem_of_cons, IH. split.
      * intros [H|[[Hk Hin]|[-> [(l1 & Hin & ->)|[Hnot ->]]]]].
        -- injection H as -> ->. left. split; [done | by left].
        -- left. split; [done | by right].
        -- right. split; [done |]. left. exists l1. split; [by right | done].
        -- right. split; [done |]. right. split; [| done].
           intros [?|?]; [congruence | done].
      * intros [[Hk [H|Hin]]|[-> [(l1 & Hin & ->)|[Hnot ->]]]].
        -- by left.
        -- right. left. by split.
        -- apply elem_of_cons in Hin as [H|Hin].
           ++ by injection H as ->.
           ++ right. right. split; [done |]. left. by exists l1.
        -- right. right. split; [done |]. right. split; [| done].
           intros Hin. apply Hnot. by right.
Qed.

Lemma descriptors_of_snoc (key k : RuleKey) (di : DispatchInfo)
    (routes : list (RuleKey * DispatchInfo)) :
  descriptors_of k (routes ++ [(key, di)])
  = descriptors_of k routes ++ (if bool_decide (key = k) then [di] else []).
Proof.
  unfold descriptors_of. rewrite filter_app, fmap_app. f_equal.
  rewrite filter_cons, filter_nil. simpl.
  destruct (decide (key = k)) as [->|Hne].
  - by rewrite bool_decide_eq_true_2.
  - by rewrite bool_decide_eq_false_2.
Qed.

Lemma grouped_append (d : list (RuleKey * list DispatchInfo))
    (routes : list (RuleKey * DispatchInfo)) (key : RuleKey)
    (di : DispatchInfo) :
  grouped d routes →
  grouped (rules_dict_append key di d) (routes ++ [(key, di)]).
Proof.
  intros [Hnodup Hd]. split; [by apply rules_dict_append_NoDup |].
  intros k l. rewrite rules_dict_append_elem_of by done.
  rewrite descriptors_of_snoc. split.
  - intros [[Hne Hin]|[-> [(l0 & Hin & ->)|[Hnot ->]]]].
    + rewrite bool_decide_eq_false_2 by done. rewrite app_nil_r.
      by apply Hd.
    + rewrite bool_decide_eq_true_2 by done.
      apply Hd in Hin as [-> _]. split; [done |]. by destruct (descriptors_of _ _).
    + rewrite bool_decide_eq_true_2 by done.
      destruct (descriptors_of key routes) as [|x xs] eqn:Hdesc; [done |].
      exfalso. apply Hnot. apply list_elem_of_fmap.
      exists (key, x :: xs). split; [done |]. apply Hd. by rewrite Hdesc.
  - intros [-> Hne]. case_bool_decide as Hk.
    + subst k. right. split; [done |].
      destruct (descriptors_of key routes) as [|x xs] eqn:Hdesc.
      * right. split; [| done]. intros Hin.
        apply list_elem_of_fmap in Hin as ([k' l'] & Hk' & Hin).
        simpl in Hk'. subst k'.
        apply Hd in Hin as [-> Hl']. by rewrite Hdesc in Hl'.
      * left. exists (x :: xs). split; [| done]. apply Hd. by rewrite Hdesc.
    + left. split; [congruence |]. rewrite app_nil_r in *. by apply Hd.
Qed.

Lemma grouped_append_all (routes more : list (RuleKey * DispatchInfo))
    (d : list (RuleKey * list DispatchInfo)) :
  grouped d routes → grouped (append_all more d) (routes ++ more).
Proof.
  revert d routes. induction more as [|[k di] more IH]; intros d routes Hg.
  - by rewrite app_nil_r.
  - simpl. replace (routes ++ (k, di) :: more)
      with ((routes ++ [(k, di)]) ++ more) by (by rewrite <- app_assoc).
    apply IH. by apply grouped_append.
Qed.

(** X27.  The table of [rest_rules] groups the generated routes: it has one rule
    for each service, URL and method generated for some operation, and the
    rule holds the descriptors generated under that triple, in the order in
    which the operations are iterated.  The table is built only when a route
    is generated for every operation; otherwise [rest_rules] raises what the
    first failing generation raises. *)
Theorem rest_rules_groups_generated (self : RoutingRuleGenerator)
    (service_map : list (string * list (string * OperationSummary))) :
  match generated get_non_task_operation_name self service_map with
  | Raise e =>
      rest_rules get_non_task_operation_name self service_map = Raise e
  | Ok routes =>
      ∃ rules_dict,
        rest_rules get_non_task_operation_name self service_map
        = Ok (new_Rule <$> rules_dict)
        ∧ NoDup rules_dict.*1
        ∧ ∀ key descriptors,
            (key, descriptors) ∈ rules_dict
            ↔ descriptors = descriptors_of key routes ∧ descriptors ≠ []
  end.
Proof.
  unfold rest_rules. rewrite rest_rules_services_generated.
  destruct (generated _ _ _) as [routes|e]; [| done].
  exists (append_all routes []). split; [done |].
  apply (grouped_append_all [] routes []).
  split; [apply NoDup_nil_2 |].
  intros k l. split; [by intros H%elem_of_nil | by intros [-> H]].
Qed.

End RoutingTable.

(** * Instances of the further properties *)

Lemma create_task_get_info_witness :
  let '(returned, after) :=
    Examples.create 0 [] true "a" TaskManager.new_TaskManagerImpl in
  returned = ExamplesMore.task_a
  ∧ ∃ i, TaskManager.get_info ExamplesMore.task_a after = Ok i
         ∧ get_field i "service" = Ok (StringValue "com.example.jobs")
         ∧ get_field i "operation" = Ok (StringValue "run$task")
         ∧ get_field i "status" = Ok (StringValue TaskManager.PENDING)
         ∧ get_field i "cancelable" = Ok (BooleanValue true).
Proof.
  apply (create_task_get_info Examples.Message Examples.message_value
           (Examples.at_time 0 []) None "com.example.jobs" "run$task" true []
           (Some "a") TaskManager.new_TaskManagerImpl).
  - reflexivity.
  - intros t H. by apply elem_of_nil in H.
Defined.

Lemma sweep_chronological_removes_expired_witness :
  let env :=
    Examples.at_time (Examples.hours 25)
      [(ExamplesMore.task_a, 0); (ExamplesMore.task_b, Examples.hours 12)] in
  let after :=
    TaskManager._remove_expired_task env Examples.a_then_b_succeeded in
  TaskManager.task_map after !! ExamplesMore.task_a = None
  ∧ (ExamplesMore.task_a, 0) ∉ TaskManager.tasks_to_remove after.
Proof.
  apply (sweep_chronological_removes_expired
           (Examples.at_time (Examples.hours 25)
              [(ExamplesMore.task_a, 0);
               (ExamplesMore.task_b, Examples.hours 12)])
           Examples.a_then_b_succeeded ExamplesMore.task_a 0).
  - simpl. repeat split; repeat constructor; done.
  - left.
  - reflexivity.
Defined.

Lemma sweep_keeps_unexpired_witness :
  let env :=
    Examples.at_time (Examples.hours 23) [(ExamplesMore.task_a, 0)] in
  TaskManager.task_map
    (TaskManager._remove_expired_task env Examples.a_succeeded)
    !! ExamplesMore.task_a = Some (ExamplesMore.a_summary "SUCCEEDED")
  ∧ TaskManager.get_infos
      (TaskManager._remove_expired_task env Examples.a_succeeded)
      !! ExamplesMore.task_a
    = Some (Examples.info_with_status "SUCCEEDED" true).
Proof.
  apply (sweep_keeps_unexpired
           (Examples.at_time (Examples.hours 23) [(ExamplesMore.task_a, 0)])
           Examples.a_succeeded ExamplesMore.task_a
           (ExamplesMore.a_summary "SUCCEEDED")).
  - reflexivity.
  - intros t H. apply list_elem_of_singleton in H. injection H as ->.
    reflexivity.
Defined.

Lemma create_task_id_injective_witness :
  "com.example.jobs" = "com.example.jobs" ∧ "a" = "a".
Proof.
  split.
  - apply (proj1 (create_task_id_injective "a" "a" "com.example.jobs"
                    "com.example.jobs")).
    reflexivity.
  - apply (proj2 (create_task_id_injective "a" "a" "com.example.jobs"
                    "com.example.jobs")).
    reflexivity.
Defined.

Lemma set_info_terminal_witness :
  let '(outcome, after) :=
    TaskManager.set_info (Examples.at_time (Examples.hours 1) [])
      ExamplesMore.task_a (Examples.info_with_status "FAILED" true)
      ExamplesMore.a_created in
  outcome = Ok ()
  ∧ TaskManager.get_summary ExamplesMore.task_a after
    = Ok {| TaskManager.info := Examples.info_with_status "FAILED" true;
            TaskManager.errors := [] |}
  ∧ (ExamplesMore.task_a, Examples.hours 1)
    ∈ TaskManager.tasks_to_remove after
  ∧ TaskManager.is_marked_for_cancellation ExamplesMore.task_a after = false.
Proof.
  eapply (set_info_terminal (Examples.at_time (Examples.hours 1) [])
            ExamplesMore.task_a (Examples.info_with_status "FAILED" true)
            (StringValue "FAILED") ExamplesMore.a_created
            ExamplesMore.a_created_summary).
  - reflexivity.
  - reflexivity.
  - by right.
Defined.

Lemma set_info_not_terminal_witness :
  let '(outcome, after) :=
    TaskManager.set_info (Examples.at_time (Examples.hours 1) [])
      ExamplesMore.task_a (Examples.info_with_status "PENDING" false)
      ExamplesMore.a_created in
  outcome = Ok ()
  ∧ TaskManager.get_info ExamplesMore.task_a after
    = Ok (Examples.info_with_status "PENDING" false)
  ∧ TaskManager.tasks_to_remove after
    = TaskManager.tasks_to_remove ExamplesMore.a_created
  ∧ TaskManager.tasks_to_cancel after
    = TaskManager.tasks_to_cancel ExamplesMore.a_created
  ∧ ∀ other, other ≠ ExamplesMore.task_a →
             TaskManager.task_map after !! other
             = TaskManager.task_map ExamplesMore.a_created !! other.
Proof.
  eapply (set_info_not_terminal (Examples.at_time (Examples.hours 1) [])
            ExamplesMore.task_a (Examples.info_with_status "PENDING" false)
            (StringValue "PENDING") ExamplesMore.a_created
            ExamplesMore.a_created_summary);
    reflexivity.
Defined.

Lemma set_info_without_status_witness :
  let '(outcome, after) :=
    TaskManager.set_info (Examples.at_time (Examples.hours 1) [])
      ExamplesMore.task_a (StructValue None [("progress", StringValue "50")])
      ExamplesMore.a_created in
  outcome = Raise CoreException
  ∧ TaskManager.get_info ExamplesMore.task_a after
    = Ok (StructValue None [("progress", StringValue "50")])
  ∧ TaskManager.tasks_to_remove after
    = TaskManager.tasks_to_remove ExamplesMore.a_created
  ∧ TaskManager.tasks_to_cancel after
    = TaskManager.tasks_to_cancel ExamplesMore.a_created.
Proof.
  eapply (set_info_without_status (Examples.at_time (Examples.hours 1) [])
            ExamplesMore.task_a None [("progress", StringValue "50")]
            ExamplesMore.a_created ExamplesMore.a_created_summary);
    reflexivity.
Defined.

Lemma mark_for_cancellation_cancelable_witness :
  let '(outcome, after) :=
    TaskManager.mark_for_cancellation ExamplesMore.task_a
      ExamplesMore.a_created in
  outcome = Ok ()
  ∧ TaskManager.is_marked_for_cancellation ExamplesMore.task_a after = true
  ∧ TaskManager.task_map after = TaskManager.task_map ExamplesMore.a_created
  ∧ TaskManager.tasks_to_remove after
    = TaskManager.tasks_to_remove ExamplesMore.a_created
  ∧ TaskManager.mark_for_cancellation ExamplesMore.task_a after
    = (Ok (), after).
Proof.
  eapply (mark_for_cancellation_cancelable ExamplesMore.task_a
            ExamplesMore.a_created ExamplesMore.a_created_summary
            (BooleanValue true));
    reflexivity.
Defined.

Lemma create_task_swept_by_stale_entry_witness :
  let '(returned, after) :=
    Examples.create (Examples.hours 25) [(ExamplesMore.task_a, 0)] true "a"
      (TaskManager.remove_task ExamplesMore.task_a Examples.a_succeeded) in
  returned = ExamplesMore.task_a
  ∧ TaskManager.task_map after !! ExamplesMore.task_a = None
  ∧ TaskManager.get_info ExamplesMore.task_a after
    = Raise (KeyError ExamplesMore.task_a).
Proof.
  apply (create_task_swept_by_stale_entry Examples.Message
           Examples.message_value
           (Examples.at_time (Examples.hours 25) [(ExamplesMore.task_a, 0)])
           None "com.example.jobs" "run$task" true [] (Some "a")
           (TaskManager.remove_task ExamplesMore.task_a Examples.a_succeeded)
           [] [] 0).
  - reflexivity.
  - constructor.
  - reflexivity.
Defined.

Lemma only_mark_for_cancellation_marks_witness :
  TaskManager.is_marked_for_cancellation ExamplesMore.task_a
    (Examples.create 0 [] true "b" ExamplesMore.a_created).2
  = TaskManager.is_marked_for_cancellation ExamplesMore.task_a
      ExamplesMore.a_created
  ∧ (TaskManager.is_marked_for_cancellation ExamplesMore.task_a
       (TaskManager.set_info (Examples.at_time 0 []) ExamplesMore.task_a
          (Examples.info_with_status "PENDING" true)
          ExamplesMore.a_created).2 = true →
     TaskManager.is_marked_for_cancellation ExamplesMore.task_a
       ExamplesMore.a_created = true)
  ∧ TaskManager.is_marked_for_cancellation ExamplesMore.task_a
      (TaskManager.remove_task ExamplesMore.task_a ExamplesMore.a_created)
    = TaskManager.is_marked_for_cancellation ExamplesMore.task_a
        ExamplesMore.a_created.
Proof.
  exact (only_mark_for_cancellation_marks Examples.Message
           Examples.message_value (Examples.at_time 0 []) None
           "com.example.jobs" "run$task" true [] (Some "b")
           ExamplesMore.task_a ExamplesMore.task_a
           (Examples.info_with_status "PENDING" true)
           ExamplesMore.a_created).
Defined.

Lemma generated_descriptor_kind_witness :
  Rules.operation_id
    (Rules.new_DispatchInfo REQUEST "list" None None (Some "cancel"))
  = Examples.non_task_name "list"
  ∧ Rules.mapping_type
      (Rules.new_DispatchInfo REQUEST "list" None None (Some "cancel"))
    = if has_request_mapping_metadata ExamplesMore.mapped_summary
      then REQUEST
      else if (has_verb_metadata ExamplesMore.mapped_summary
               && negb (String.eqb "com.example.jobs"
                          "com.vmware.cis.session"))%bool
           then VERB
           else NONE.
Proof.
  apply (generated_descriptor_kind Examples.non_task_name "/rest"
           "com.example.jobs" "list" ExamplesMore.mapped_summary
           "/rest/jobs/<id>" "POST").
  reflexivity.
Defined.

Lemma service_base_url_shape_witness :
  ∃ suffix,
    Rules._generate_service_base_url "/rest/" "com.example.Widget_store"
    = "/rest/" +:+ suffix
    ∧ String.length suffix = 24%nat
    ∧ Forall (fun c => SpecUrl.url_char c = true) (SpecUrl.chars suffix).
Proof.
  apply (service_base_url_shape "/rest/" "com.example.Widget_store").
  reflexivity.
Defined.

Lemma fixed_action_selects_declared_witness :
  Handler.select_operation Examples.post_request ∅
    (ExamplesMore.query_action "stop")
    [ExamplesMore.stop_action; ExamplesMore.start_action]
  = Ok ("stop", REQUEST).
Proof.
  apply (fixed_action_selects_declared Examples.post_request ∅
           (ExamplesMore.query_action "stop") []
           [ExamplesMore.start_action] ExamplesMore.stop_action "stop").
  - discriminate.
  - repeat constructor.
  - reflexivity.
  - discriminate.
  - reflexivity.
  - repeat constructor. discriminate.
Defined.

Lemma fixed_action_unknown_is_not_found_witness :
  Handler.select_operation Examples.post_request ∅
    (ExamplesMore.query_action "pause")
    [ExamplesMore.start_action; ExamplesMore.stop_action]
  = Raise (NotFound (Handler.msg_no_method_for_action "pause")).
Proof.
  apply (fixed_action_unknown_is_not_found Examples.post_request ∅
           (ExamplesMore.query_action "pause")
           [ExamplesMore.start_action; ExamplesMore.stop_action] "pause").
  - simpl. lia.
  - repeat constructor.
  - reflexivity.
  - discriminate.
  - repeat constructor; discriminate.
Defined.

Lemma default_selects_derived_witness :
  Handler.select_operation Examples.post_request (<["id" := "j-1"]> ∅)
    (ExamplesMore.query_tilde_action "stop")
    [ExamplesMore.start_plain; ExamplesMore.stop_plain]
  = Ok ("stop", NONE).
Proof.
  apply (default_selects_derived Examples.post_request (<["id" := "j-1"]> ∅)
           (ExamplesMore.query_tilde_action "stop")
           [ExamplesMore.start_plain] [] ExamplesMore.stop_plain "create").
  - discriminate.
  - repeat constructor.
  - reflexivity.
  - reflexivity.
  - constructor.
Defined.

Lemma unknown_verb_fast_path_and_scoring_witness :
  (Rules.mapping_type ExamplesMore.start_plain ≠ VERB →
   Handler.select_operation ExamplesMore.options_request ∅ ∅
     [ExamplesMore.start_plain] = Ok ("start", NONE))
  ∧ (Rules.mapping_type ExamplesMore.start_plain = NONE →
     [ExamplesMore.stop_plain] ≠ [] →
     Handler.select_operation ExamplesMore.options_request ∅ ∅
       [ExamplesMore.start_plain; ExamplesMore.stop_plain]
     = Raise (KeyError "OPTIONS")).
Proof.
  apply (unknown_verb_fast_path_and_scoring ExamplesMore.options_request ∅ ∅
           ExamplesMore.start_plain [ExamplesMore.stop_plain]).
  reflexivity.
Defined.

Lemma found_operation_is_known_witness :
  (∃ operations summary,
     Handler.service_map Examples.widgets_metadata !! "com.example.widgets"
     = Some operations
     ∧ operations !! "list" = Some summary)
  ∧ ∀ method_result, ∃ status,
      Handler._serialize_output_status ∅ Examples.widgets_metadata
        Examples.get_request "com.example.widgets" "list" method_result
      = Ok status.
Proof.
  apply (found_operation_is_known Examples.task_name ∅
           Examples.widgets_metadata Examples.get_request
           "com.example.widgets" ∅ ∅
           [Rules.new_DispatchInfo NONE "list" None None None] "list" NONE).
  reflexivity.
Defined.

Lemma task_parameter_decides_witness :
  (PyStr.lower "yes" ≠ "true" →
   Handler._find_matching_operation Examples.task_name
     Examples.widgets_metadata Examples.get_request "com.example.widgets"
     ∅ (<["vmw-task" := "yes"]> ∅)
     [Rules.new_DispatchInfo NONE "list" None None None]
   = Raise (BadRequest Handler.msg_invalid_task_param)
   ∧ http_code (BadRequest Handler.msg_invalid_task_param) = Some 400)
  ∧ (PyStr.lower "yes" = "true" →
     ∀ operations summary,
       Handler.service_map Examples.widgets_metadata !! "com.example.widgets"
       = Some operations →
       operations !! Examples.task_name "list" = Some summary →
       Handler._find_matching_operation Examples.task_name
         Examples.widgets_metadata Examples.get_request
         "com.example.widgets" ∅ (<["vmw-task" := "yes"]> ∅)
         [Rules.new_DispatchInfo NONE "list" None None None]
       = Ok (Examples.task_name "list", NONE)).
Proof.
  apply (task_parameter_decides Examples.task_name Examples.widgets_metadata
           Examples.get_request "com.example.widgets" ∅
           (<["vmw-task" := "yes"]> ∅)
           [Rules.new_DispatchInfo NONE "list" None None None]
           "list" "yes" NONE);
    reflexivity.
Defined.

Lemma failure_status_witness :
  ∃ status,
    Handler._serialize_output_status ∅ ExamplesMore.conflict_metadata
      Examples.delete_request "com.example.widgets" "list"
      (Failure "com.example.errors.conflict" VoidValue) = Ok status
    ∧ (∀ code,
         Handler.all_errors_response_code_map ExamplesMore.conflict_metadata
           !! "com.example.errors.conflict" = Some code → status = code)
    ∧ (Handler.all_errors_response_code_map ExamplesMore.conflict_metadata
         !! "com.example.errors.conflict" = None →
       ∀ code, (∅ : gmap string Z) !! "com.example.errors.conflict"
               = Some code → status = code)
    ∧ (Handler.all_errors_response_code_map ExamplesMore.conflict_metadata
         !! "com.example.errors.conflict" = None →
       (∅ : gmap string Z) !! "com.example.errors.conflict" = None →
       status = 500).
Proof.
  apply (failure_status ∅ ExamplesMore.conflict_metadata
           Examples.delete_request "com.example.widgets" "list"
           "com.example.errors.conflict" VoidValue
           (<["list" := Examples.plain_summary]> ∅) Examples.plain_summary);
    reflexivity.
Defined.

Lemma input_data_update_lookup_witness :
  InputData.dict_get "spec"
    (InputData._input_data_update ExamplesMore.path_data
       ExamplesMore.body_data)
  = match InputData.dict_get "spec" ExamplesMore.body_data with
    | Some value =>
        Some (SpecInput.updated InputData._input_data_update
                (InputData.dict_get "spec" ExamplesMore.path_data) value)
    | None => InputData.dict_get "spec" ExamplesMore.path_data
    end.
Proof.
  apply (input_data_update_lookup ExamplesMore.path_data
           ExamplesMore.body_data "spec").
  by apply (bool_decide_unpack _).
Defined.

Lemma input_data_update_disjoint_witness :
  InputData._input_data_update ExamplesMore.path_data
    ExamplesMore.header_data
  = ExamplesMore.path_data ++ ExamplesMore.header_data.
Proof.
  apply (input_data_update_disjoint ExamplesMore.path_data
           ExamplesMore.header_data).
  - by apply (bool_decide_unpack _).
  - intros key Hin. apply list_elem_of_singleton in Hin. subst key.
    by apply (bool_decide_unpack _).
Defined.

Lemma change_parameter_structure_path_witness :
  ∃ changed,
    InputData._change_parameter_structure ExamplesMore.path_data
      ["spec"; "body"; "user"] (InputData.PyStr "Bob") = Some changed
    ∧ SpecInput.path_get ["spec"; "body"; "user"] changed
      = Some (InputData.PyStr "Bob").
Proof.
  apply (proj2 (change_parameter_structure_path ExamplesMore.path_data
                  ["spec"; "body"; "user"] (InputData.PyStr "Bob"))).
  discriminate.
Defined.

Lemma change_parameter_structure_other_paths_witness :
  SpecInput.path_get ["spec"; "query_long"]
    [("id", InputData.PyStr "w-1");
     ("spec", InputData.PyDict
                [("query_long", InputData.PyInt 1);
                 ("body", InputData.PyDict
                            [("user", InputData.PyStr "Bob")])])]
  = SpecInput.path_get ["spec"; "query_long"] ExamplesMore.path_data.
Proof.
  apply (change_parameter_structure_other_paths ExamplesMore.path_data
           _ ["spec"; "body"; "user"] ["spec"; "query_long"]
           (InputData.PyStr "Bob")).
  - reflexivity.
  - right. split; [reflexivity |]. left. discriminate.
Defined.
